(** * NetDAQ channel configuration encoding

    A shallow embedding of [src/config.py] (the monolithic channel classes and
    the device configuration) and of [src/lib/config/channels/analog.py] (the
    per-measurement analog channel classes), with the properties of the
    specification stated over it.

    Python [int] is [Z], Python [float] is the binary64 [float] of the kernel
    (same rounding, same comparisons, one NaN), [bytes] is a list of bytes,
    [int | None] is [option Z].  A raised exception is the [Raise] case of
    [result]. *)

From Stdlib Require Import ZArith List Bool Floats Lia Permutation String.
Import ListNotations.

Set Warnings "-inexact-float".
Local Open Scope Z_scope.

(* ================================================================== *)
(** ** Exceptions *)

Inductive exn : Type :=
| ConfigError (msg : string)
| NotImplementedError (msg : string)
| ZeroDivisionError.

Inductive result (A : Type) : Type :=
| Ok (a : A)
| Raise (e : exn).
Arguments Ok {A} a.
Arguments Raise {A} e.

Definition bind {A B} (c : result A) (k : A -> result B) : result B :=
  match c with
  | Ok a => k a
  | Raise e => Raise e
  end.

Notation "x <- c ;; k" := (bind c (fun x => k))
  (at level 61, c at next level, right associativity).
Notation "c ;;; k" := (bind c (fun _ => k))
  (at level 61, right associativity).

Definition raises {A} (c : result A) : bool :=
  match c with Ok _ => false | Raise _ => true end.

Definition is_config_error {A} (c : result A) : bool :=
  match c with Raise (ConfigError _) => true | _ => false end.

(* ================================================================== *)
(** ** Python floats *)

Module PyFloat.

(** [a / b] on Python floats: a zero divisor raises, anything else is the
    IEEE quotient. *)
Definition truediv (a b : float) : result float :=
  if PrimFloat.eqb b 0%float then Raise ZeroDivisionError
  else Ok (PrimFloat.div a b).

(** [a < b], [a > b], [a != b]. *)
Definition lt (a b : float) : bool := PrimFloat.ltb a b.
Definition gt (a b : float) : bool := PrimFloat.ltb b a.
Definition ne (a b : float) : bool := negb (PrimFloat.eqb a b).

(** [math.isnan(x)]: a NaN is the one float that differs from itself. *)
Definition isnan (x : float) : bool := negb (PrimFloat.eqb x x).

(** The closed interval [lo, hi], as the specification writes range
    constraints. *)
Definition in_range (lo hi x : float) : bool :=
  PrimFloat.leb lo x && PrimFloat.leb x hi.

End PyFloat.

(* ================================================================== *)
(** ** The primitive codec and the enumerations

    [encoding.py] and [enums.py] are not part of the sources at hand.  The
    codec is a parameter (a class, instantiated by the device protocol); an
    enumeration is the inductive type of the members the sources name, with
    its numeric codes a parameter as well. *)

Definition bytes : Type := list Byte.byte.

(** Modelled from the spec: the primitive codec ([encoding.py],
    [utils/encoding.py]) is missing; the specification gives it as total
    functions into fixed-width byte strings, with a reusable zero integer. *)
Class Encoding : Type := {
  make_int : Z -> bytes;
  make_float : float -> bytes;
  make_optional_indexed_bit : option Z -> bytes;
  NULL_INTEGER : bytes;
  ZERO_INT : bytes
}.

(** [e.value] for a member [e] of an enumeration. *)
Class EnumValue (E : Type) : Type := value : E -> Z.

Ltac enum_eq_dec := decide equality; apply Nat.eq_dec.

(** Modelled from the spec: [enums.py] is missing.  Each enumeration has the
    members that the sources or the specification name; [other n] stands for
    the members they do not name. *)
Module DAQConfigAlarm.
Inductive t : Type := OFF | other (n : nat).
Definition eq_dec (a b : t) : {a = b} + {a <> b}.
Proof. enum_eq_dec. Defined.
Definition eqb (a b : t) : bool := if eq_dec a b then true else false.
End DAQConfigAlarm.

Module DAQAnalogMeasuremenType.
Inductive t : Type :=
| OFF | Ohms | Ohms_4Wire | RTD | Thermocouple | Current | VDC | VAC
| Frequency.
Definition eq_dec (a b : t) : {a = b} + {a <> b}.
Proof. enum_eq_dec. Defined.
Definition eqb (a b : t) : bool := if eq_dec a b then true else false.
End DAQAnalogMeasuremenType.

Module DAQComputedMeasurementType.
Inductive t : Type := Average | AminusB | Equation | other (n : nat).
End DAQComputedMeasurementType.

Module DAQRange.
Inductive t : Type := NONE | Current_20mA | Current_100mA | other (n : nat).
Definition eq_dec (a b : t) : {a = b} + {a <> b}.
Proof. enum_eq_dec. Defined.
Definition eqb (a b : t) : bool := if eq_dec a b then true else false.
End DAQRange.

Module DAQConfigSpeed.
Inductive t : Type := SLOW | MEDIUM | FAST.
Definition eq_dec (a b : t) : {a = b} + {a <> b}.
Proof. enum_eq_dec. Defined.
Definition eqb (a b : t) : bool := if eq_dec a b then true else false.
End DAQConfigSpeed.

Module DAQConfigTrigger.
Inductive t : Type := INTERVAL | other (n : nat).
End DAQConfigTrigger.

Module DAQConfigBits.
Inductive t : Type :=
| DRIFT_CORRECTION | TRIGGER_OUT | FAHRENHEIT | TOTALIZER_DEBOUNCE
| other (n : nat).
End DAQConfigBits.

Module DAQOhmsRange.
Inductive t : Type := Ohms_300 | Ohms_3k | other (n : nat).
Definition eq_dec (a b : t) : {a = b} + {a <> b}.
Proof. enum_eq_dec. Defined.
Definition eqb (a b : t) : bool := if eq_dec a b then true else false.
End DAQOhmsRange.

Module DAQVDCRange.
Inductive t : Type := other (n : nat).
End DAQVDCRange.

Module DAQVACRange.
Inductive t : Type := other (n : nat).
End DAQVACRange.

Module DAQThermocoupleRange.
Inductive t : Type := other (n : nat).
End DAQThermocoupleRange.

Module DAQRTDRange.
Inductive t : Type := RTD_FIXED_385 | RTD_CUSTOM_385 | other (n : nat).
Definition eq_dec (a b : t) : {a = b} + {a <> b}.
Proof. enum_eq_dec. Defined.
Definition eqb (a b : t) : bool := if eq_dec a b then true else false.
End DAQRTDRange.

(** The specification knows two current ranges, 20 mA and 100 mA. *)
Module DAQCurrentRange.
Inductive t : Type := Current_20mA | Current_100mA.
Definition eq_dec (a b : t) : {a = b} + {a <> b}.
Proof. enum_eq_dec. Defined.
Definition eqb (a b : t) : bool := if eq_dec a b then true else false.
End DAQCurrentRange.

(** The numeric codes of all enumerations, as one parameter. *)
Class EnumTables : Type := {
  DAQConfigAlarm_value :: EnumValue DAQConfigAlarm.t;
  DAQAnalogMeasuremenType_value :: EnumValue DAQAnalogMeasuremenType.t;
  DAQComputedMeasurementType_value :: EnumValue DAQComputedMeasurementType.t;
  DAQRange_value :: EnumValue DAQRange.t;
  DAQConfigSpeed_value :: EnumValue DAQConfigSpeed.t;
  DAQConfigTrigger_value :: EnumValue DAQConfigTrigger.t;
  DAQConfigBits_value :: EnumValue DAQConfigBits.t;
  DAQOhmsRange_value :: EnumValue DAQOhmsRange.t;
  DAQVDCRange_value :: EnumValue DAQVDCRange.t;
  DAQVACRange_value :: EnumValue DAQVACRange.t;
  DAQThermocoupleRange_value :: EnumValue DAQThermocoupleRange.t;
  DAQRTDRange_value :: EnumValue DAQRTDRange.t;
  DAQCurrentRange_value :: EnumValue DAQCurrentRange.t
}.

(* ================================================================== *)
(** ** [src/config.py] *)

Module Config.

Record DAQChannel : Type := {
  use_channel_as_alarm_trigger : bool;
  alarm1_mode : DAQConfigAlarm.t;
  alarm2_mode : DAQConfigAlarm.t;
  alarm1_level : float;
  alarm2_level : float;
  alarm1_digital : option Z;
  alarm2_digital : option Z;
  mxab_multuplier : float;
  mxab_offset : float
}.

Record DAQAnalogChannel : Type := {
  analog_base : DAQChannel;
  mtype : DAQAnalogMeasuremenType.t;
  aux1 : float;
  aux2 : float;
  open_thermocouple_detect : bool;
  range : DAQRange.t
}.

Record DAQComputedAverageChannel : Type := {
  average_base : DAQChannel;
  average_channel_bitmask : Z
}.

Record DAQComputedAminusBChannel : Type := {
  aminusb_base : DAQChannel;
  aminusb_channel_a : Z;
  aminusb_channel_b : Z
}.

Record DAQComputedAminusAvgChannel : Type := {
  aminusavg_base : DAQChannel;
  aminusavg_channel_a : Z;
  aminusavg_channel_bitmask : Z
}.

Record DAQComputedEquationChannel : Type := {
  equation_base : DAQChannel;
  equation : bytes
}.

(** A channel object, by its class.  [DAQChannel] and [DAQComputedChannel]
    are plain dataclasses, so objects of these two classes exist as well. *)
Inductive Channel : Type :=
| Base (c : DAQChannel)
| Analog (c : DAQAnalogChannel)
| Computed (c : DAQChannel)
| Average (c : DAQComputedAverageChannel)
| AminusB (c : DAQComputedAminusBChannel)
| AminusAvg (c : DAQComputedAminusAvgChannel)
| Equation (c : DAQComputedEquationChannel).

(** The [DAQChannel] fields of a channel object. *)
Definition common (self : Channel) : DAQChannel :=
  match self with
  | Base c => c
  | Analog c => analog_base c
  | Computed c => c
  | Average c => average_base c
  | AminusB c => aminusb_base c
  | AminusAvg c => aminusavg_base c
  | Equation c => equation_base c
  end.

(** The classes that implement [write] or [write_with_aux]. *)
Definition concrete (self : Channel) : bool :=
  match self with
  | Base _ | Computed _ => false
  | _ => true
  end.

Record DAQConfiguration : Type := {
  speed : DAQConfigSpeed.t;
  temperature_fahrenheit : bool;
  trigger_out : bool;
  drift_correction : bool;
  totalizer_debounce : bool;
  triggers : list DAQConfigTrigger.t;
  interval_time : float;
  alarm_time : float;
  analog_channels : list DAQAnalogChannel;
  computed_channels : list Channel
}.

Definition set_triggers (self : DAQConfiguration)
    (l : list DAQConfigTrigger.t) : DAQConfiguration :=
  {| speed := speed self;
     temperature_fahrenheit := temperature_fahrenheit self;
     trigger_out := trigger_out self;
     drift_correction := drift_correction self;
     totalizer_debounce := totalizer_debounce self;
     triggers := l;
     interval_time := interval_time self;
     alarm_time := alarm_time self;
     analog_channels := analog_channels self;
     computed_channels := computed_channels self |}.

Section WithTables.
Context {codec : Encoding} {tables : EnumTables}.

Definition alarm_bits (self : DAQChannel) : Z :=
  let result := if use_channel_as_alarm_trigger self then 0x01 else 0x00 in
  let result := Z.lor result (Z.shiftl (value (alarm1_mode self)) 1) in
  let result := Z.lor result (Z.shiftl (value (alarm2_mode self)) 3) in
  result.

Definition write_common_trailer (self : DAQChannel) : bytes :=
  make_int (alarm_bits self) ++
  make_float (alarm1_level self) ++
  make_float (alarm2_level self) ++
  make_optional_indexed_bit (alarm1_digital self) ++
  make_optional_indexed_bit (alarm2_digital self) ++
  make_float (mxab_multuplier self) ++
  make_float (mxab_offset self).

Definition extra_bits (self : DAQAnalogChannel) : Z :=
  if DAQAnalogMeasuremenType.eqb (mtype self)
       DAQAnalogMeasuremenType.Ohms then 0x9000
  else if DAQAnalogMeasuremenType.eqb (mtype self)
            DAQAnalogMeasuremenType.Ohms_4Wire
          || DAQAnalogMeasuremenType.eqb (mtype self)
               DAQAnalogMeasuremenType.RTD then 0x9001
  else if DAQAnalogMeasuremenType.eqb (mtype self)
            DAQAnalogMeasuremenType.Thermocouple then
    (if open_thermocouple_detect self then 0x0001 else 0x0000)
  else if DAQAnalogMeasuremenType.eqb (mtype self)
            DAQAnalogMeasuremenType.Current then
    (if DAQRange.eqb (range self) DAQRange.Current_20mA then 0x7000
     else 0x7001)
  else 0x0000.

Definition DAQAnalogChannel_write (self : DAQAnalogChannel) : bytes :=
  make_int (value (mtype self)) ++
  make_int (value (range self)) ++
  make_float (aux1 self) ++
  make_float (aux2 self) ++
  make_int (extra_bits self) ++
  write_common_trailer (analog_base self).

Definition DAQComputedAverageChannel_write
    (self : DAQComputedAverageChannel) : bytes :=
  make_int (value DAQComputedMeasurementType.Average) ++
  NULL_INTEGER ++
  NULL_INTEGER ++
  NULL_INTEGER ++
  make_int (average_channel_bitmask self) ++
  write_common_trailer (average_base self).

Definition DAQComputedAminusBChannel_write
    (self : DAQComputedAminusBChannel) : bytes :=
  make_int (value DAQComputedMeasurementType.AminusB) ++
  NULL_INTEGER ++
  make_int (aminusb_channel_a self) ++
  NULL_INTEGER ++
  make_int (aminusb_channel_b self) ++
  write_common_trailer (aminusb_base self).

Definition DAQComputedAminusAvgChannel_write
    (self : DAQComputedAminusAvgChannel) : bytes :=
  make_int (value DAQComputedMeasurementType.AminusB) ++
  NULL_INTEGER ++
  make_int (aminusavg_channel_a self) ++
  NULL_INTEGER ++
  make_int (aminusavg_channel_bitmask self) ++
  write_common_trailer (aminusavg_base self).

(** [DAQChannel.write], the method every class inherits unless it
    defines its own. *)
Definition DAQChannel_write (self : Channel) : result bytes :=
  Raise (NotImplementedError
    "write or write_with_equation method must be implemented in subclass").

(** [self.write()], resolved on the class of [self]. *)
Definition write (self : Channel) : result bytes :=
  match self with
  | Analog c => Ok (DAQAnalogChannel_write c)
  | Average c => Ok (DAQComputedAverageChannel_write c)
  | AminusB c => Ok (DAQComputedAminusBChannel_write c)
  | AminusAvg c => Ok (DAQComputedAminusAvgChannel_write c)
  | Base _ | Computed _ | Equation _ => DAQChannel_write self
  end.

(** [DAQChannel.write_with_aux], the default. *)
Definition DAQChannel_write_with_aux (self : Channel) (aux_offset : Z)
  : result (bytes * bytes) :=
  payload <- write self ;;
  Ok (payload, []).

Definition DAQComputedEquationChannel_write_with_aux
    (self : DAQComputedEquationChannel) (aux_offset : Z)
  : result (bytes * bytes) :=
  let payload :=
    make_int (value DAQComputedMeasurementType.Equation) ++
    NULL_INTEGER ++
    NULL_INTEGER ++
    NULL_INTEGER ++
    make_int aux_offset ++
    write_common_trailer (equation_base self) in
  Ok (payload, equation self).

(** [self.write_with_aux(aux_offset)], resolved on the class of
    [self]. *)
Definition write_with_aux (self : Channel) (aux_offset : Z)
  : result (bytes * bytes) :=
  match self with
  | Equation c => DAQComputedEquationChannel_write_with_aux c aux_offset
  | _ => DAQChannel_write_with_aux self aux_offset
  end.

Definition bits (self : DAQConfiguration) : Z :=
  let result := value (speed self) in
  let result :=
    if drift_correction self
       || negb (DAQConfigSpeed.eqb (speed self) DAQConfigSpeed.FAST)
    then Z.lor result (value DAQConfigBits.DRIFT_CORRECTION)
    else result in
  let result :=
    if trigger_out self
    then Z.lor result (value DAQConfigBits.TRIGGER_OUT) else result in
  let result :=
    if temperature_fahrenheit self
    then Z.lor result (value DAQConfigBits.FAHRENHEIT) else result in
  let result :=
    if totalizer_debounce self
    then Z.lor result (value DAQConfigBits.TOTALIZER_DEBOUNCE)
    else result in
  fold_left (fun result trig => Z.lor result (value trig))
    (triggers self) result.

End WithTables.

End Config.

(* ================================================================== *)
(** ** [src/lib/config/channels/analog.py] *)

Module Analog.

(** Modelled from the spec: the base class [DAQAnalogChannel] of
    [lib/config/channels/base.py] is missing.  It carries the alarm and
    calibration fields of every channel; [analog.py] reads its fields
    [mxab_multuplier] and [mxab_offset] and overrides its two hooks. *)
Record DAQAnalogChannel : Type := {
  use_channel_as_alarm_trigger : bool;
  alarm1_mode : DAQConfigAlarm.t;
  alarm2_mode : DAQConfigAlarm.t;
  alarm1_level : float;
  alarm2_level : float;
  alarm1_digital : option Z;
  alarm2_digital : option Z;
  mxab_multuplier : float;
  mxab_offset : float
}.

(** The overridable part of the base class: where an object keeps the base
    fields, and its two calibration hooks. *)
Class Calibration (T : Type) : Type := {
  base : T -> DAQAnalogChannel;
  _modified_mxab_multiplier : T -> result float;
  _modified_mxab_offset : T -> result float
}.

(** Modelled from the spec: the hooks of the base class return the raw
    calibration values. *)
Definition default_modified_mxab_multiplier (self : DAQAnalogChannel)
  : result float := Ok (mxab_multuplier self).
Definition default_modified_mxab_offset (self : DAQAnalogChannel)
  : result float := Ok (mxab_offset self).

Section Base.
Context {codec : Encoding} {tables : EnumTables}.

(** Modelled from the spec: [alarm_bits] of the missing base class. *)
Definition alarm_bits (self : DAQAnalogChannel) : Z :=
  Z.lor (Z.lor (if use_channel_as_alarm_trigger self then 1 else 0)
               (Z.shiftl (value (alarm1_mode self)) 1))
        (Z.shiftl (value (alarm2_mode self)) 3).

(** Modelled from the spec: [encode_common_trailer] of the missing base
    class, which writes the values its two hooks return. *)
Definition encode_common_trailer {T} `{Calibration T} (self : T)
  : result bytes :=
  multiplier <- _modified_mxab_multiplier self ;;
  offset <- _modified_mxab_offset self ;;
  Ok (make_int (alarm_bits (base self)) ++
      make_float (alarm1_level (base self)) ++
      make_float (alarm2_level (base self)) ++
      make_optional_indexed_bit (alarm1_digital (base self)) ++
      make_optional_indexed_bit (alarm2_digital (base self)) ++
      make_float multiplier ++
      make_float offset).
End Base.

Module DAQAnalogOhmsChannel.
Record t : Type := {
  super : DAQAnalogChannel;
  range : DAQOhmsRange.t;
  four_wire : bool
}.

#[global] Instance calibration : Calibration t := {|
  base := super;
  _modified_mxab_multiplier self :=
    default_modified_mxab_multiplier (super self);
  _modified_mxab_offset self := default_modified_mxab_offset (super self)
|}.

Definition __post_init__ (self : t) : result unit :=
  if negb (four_wire self)
     && (DAQOhmsRange.eqb (range self) DAQOhmsRange.Ohms_300
         || DAQOhmsRange.eqb (range self) DAQOhmsRange.Ohms_3k)
  then Raise (ConfigError
    "2-wire ohms measurement is not supported for 300 or 3k Ohms range")
  else Ok tt.

Definition encode {codec : Encoding} {tables : EnumTables} (self : t)
  : result bytes :=
  let extra_bits := 0x9000 in
  let extra_bits :=
    if four_wire self then Z.lor extra_bits 0x0001 else extra_bits in
  trailer <- encode_common_trailer self ;;
  Ok (make_int (value DAQAnalogMeasuremenType.Ohms) ++
      make_int (value (range self)) ++
      ZERO_INT ++
      ZERO_INT ++
      make_int extra_bits ++
      trailer).
End DAQAnalogOhmsChannel.

Module DAQAnalogVDCChannel.
Record t : Type := {
  super : DAQAnalogChannel;
  range : DAQVDCRange.t
}.

#[global] Instance calibration : Calibration t := {|
  base := super;
  _modified_mxab_multiplier self :=
    default_modified_mxab_multiplier (super self);
  _modified_mxab_offset self := default_modified_mxab_offset (super self)
|}.

Definition encode {codec : Encoding} {tables : EnumTables} (self : t)
  : result bytes :=
  trailer <- encode_common_trailer self ;;
  Ok (make_int (value DAQAnalogMeasuremenType.VDC) ++
      make_int (value (range self)) ++
      ZERO_INT ++
      ZERO_INT ++
      ZERO_INT ++
      trailer).
End DAQAnalogVDCChannel.

Module DAQAnalogVACChannel.
Record t : Type := {
  super : DAQAnalogChannel;
  range : DAQVACRange.t
}.

#[global] Instance calibration : Calibration t := {|
  base := super;
  _modified_mxab_multiplier self :=
    default_modified_mxab_multiplier (super self);
  _modified_mxab_offset self := default_modified_mxab_offset (super self)
|}.

Definition encode {codec : Encoding} {tables : EnumTables} (self : t)
  : result bytes :=
  trailer <- encode_common_trailer self ;;
  Ok (make_int (value DAQAnalogMeasuremenType.VAC) ++
      make_int (value (range self)) ++
      ZERO_INT ++
      ZERO_INT ++
      ZERO_INT ++
      trailer).
End DAQAnalogVACChannel.

Module DAQAnalogFrequencyChannel.
Record t : Type := {
  super : DAQAnalogChannel
}.

#[global] Instance calibration : Calibration t := {|
  base := super;
  _modified_mxab_multiplier self :=
    default_modified_mxab_multiplier (super self);
  _modified_mxab_offset self := default_modified_mxab_offset (super self)
|}.

Definition encode {codec : Encoding} {tables : EnumTables} (self : t)
  : result bytes :=
  trailer <- encode_common_trailer self ;;
  Ok (make_int (value DAQAnalogMeasuremenType.Frequency) ++
      ZERO_INT ++
      ZERO_INT ++
      ZERO_INT ++
      ZERO_INT ++
      trailer).
End DAQAnalogFrequencyChannel.

Module DAQAnalogRTDChannel.
Record t : Type := {
  super : DAQAnalogChannel;
  range : DAQRTDRange.t;
  alpha : float;
  r0 : float
}.

#[global] Instance calibration : Calibration t := {|
  base := super;
  _modified_mxab_multiplier self :=
    default_modified_mxab_multiplier (super self);
  _modified_mxab_offset self := default_modified_mxab_offset (super self)
|}.

Definition __post_init__ (self : t) : result unit :=
  if PyFloat.lt (r0 self) 10.0 || PyFloat.gt (r0 self) 1010.0
  then Raise (ConfigError
    "Custom RTD R0 value must be between 10 and 1010 Ohms")
  else if DAQRTDRange.eqb (range self) DAQRTDRange.RTD_FIXED_385 then
    if PyFloat.ne (alpha self) 0.0
    then Raise (ConfigError
      "Fixed RTD does not allow for Alpha value to be set")
    else Ok tt
  else if DAQRTDRange.eqb (range self) DAQRTDRange.RTD_CUSTOM_385 then
    if PyFloat.lt (alpha self) 0.00374 || PyFloat.gt (alpha self) 0.00393
    then Raise (ConfigError
      "Custom RTD Alpha value must be between 0.00374 and 0.00393")
    else Ok tt
  else Ok tt.

Definition encode {codec : Encoding} {tables : EnumTables} (self : t)
  : result bytes :=
  trailer <- encode_common_trailer self ;;
  Ok (make_int (value DAQAnalogMeasuremenType.RTD) ++
      make_int (value (range self)) ++
      make_float (alpha self) ++
      make_float (r0 self) ++
      make_int 0x9001 ++
      trailer).
End DAQAnalogRTDChannel.

Module DAQAnalogThermocoupleChannel.
Record t : Type := {
  super : DAQAnalogChannel;
  range : DAQThermocoupleRange.t;
  open_thermocouple_detect : bool
}.

#[global] Instance calibration : Calibration t := {|
  base := super;
  _modified_mxab_multiplier self :=
    default_modified_mxab_multiplier (super self);
  _modified_mxab_offset self := default_modified_mxab_offset (super self)
|}.

Definition encode {codec : Encoding} {tables : EnumTables} (self : t)
  : result bytes :=
  let extra_bits := 0x0000 in
  let extra_bits :=
    if open_thermocouple_detect self
    then Z.lor extra_bits 0x0001 else extra_bits in
  trailer <- encode_common_trailer self ;;
  Ok (make_int (value DAQAnalogMeasuremenType.Thermocouple) ++
      make_int (value (range self)) ++
      ZERO_INT ++
      ZERO_INT ++
      make_int extra_bits ++
      trailer).
End DAQAnalogThermocoupleChannel.

Module DAQAnalogCurrentChannel.
Record t : Type := {
  super : DAQAnalogChannel;
  range : DAQCurrentRange.t;
  shunt_resistance : float
}.

Definition __post_init__ (self : t) : result unit :=
  if PyFloat.lt (shunt_resistance self) 10.0
     || PyFloat.gt (shunt_resistance self) 250.0
  then Raise (ConfigError
    "Shunt resistance must be between 10 and 250 Ohms")
  else Ok tt.

Definition _modified_mxab_multiplier (self : t) : result float :=
  inverse <- PyFloat.truediv 1.0 (shunt_resistance self) ;;
  let modified_multiplier :=
    PrimFloat.mul (mxab_multuplier (super self)) inverse in
  let modified_multiplier :=
    if DAQCurrentRange.eqb (range self) DAQCurrentRange.Current_20mA
    then PrimFloat.mul modified_multiplier 6250.0
    else modified_multiplier in
  Ok modified_multiplier.

Definition _modified_mxab_offset (self : t) : result float :=
  if DAQCurrentRange.eqb (range self) DAQCurrentRange.Current_20mA
  then Ok (PrimFloat.sub (mxab_offset (super self)) 25.0)
  else Ok (mxab_offset (super self)).

#[global] Instance calibration : Calibration t :=
  Build_Calibration t super _modified_mxab_multiplier
    _modified_mxab_offset.

Definition encode {codec : Encoding} {tables : EnumTables} (self : t)
  : result bytes :=
  let extra_bits := 0x7000 in
  let extra_bits :=
    if DAQCurrentRange.eqb (range self) DAQCurrentRange.Current_100mA
    then Z.lor extra_bits 0x0001 else extra_bits in
  trailer <- encode_common_trailer self ;;
  Ok (make_int (value DAQAnalogMeasuremenType.Current) ++
      make_int (value (range self)) ++
      make_float (shunt_resistance self) ++
      ZERO_INT ++
      make_int extra_bits ++
      trailer).
End DAQAnalogCurrentChannel.

(** An analog channel object, by its class. *)
Inductive Channel : Type :=
| Ohms (c : DAQAnalogOhmsChannel.t)
| VDC (c : DAQAnalogVDCChannel.t)
| VAC (c : DAQAnalogVACChannel.t)
| Frequency (c : DAQAnalogFrequencyChannel.t)
| RTD (c : DAQAnalogRTDChannel.t)
| Thermocouple (c : DAQAnalogThermocoupleChannel.t)
| Current (c : DAQAnalogCurrentChannel.t).

(** [self.__post_init__()], resolved on the class of [self]; a class
    without one has nothing to check. *)
Definition __post_init__ (self : Channel) : result unit :=
  match self with
  | Ohms c => DAQAnalogOhmsChannel.__post_init__ c
  | RTD c => DAQAnalogRTDChannel.__post_init__ c
  | Current c => DAQAnalogCurrentChannel.__post_init__ c
  | VDC _ | VAC _ | Frequency _ | Thermocouple _ => Ok tt
  end.

(** The dataclass constructor: the fields are stored, then
    [__post_init__] runs; the object exists only if it returns. *)
Definition construct (fields : Channel) : result Channel :=
  __post_init__ fields ;;;
  Ok fields.

(** [self.encode()], resolved on the class of [self]. *)
Definition encode {codec : Encoding} {tables : EnumTables} (self : Channel)
  : result bytes :=
  match self with
  | Ohms c => DAQAnalogOhmsChannel.encode c
  | VDC c => DAQAnalogVDCChannel.encode c
  | VAC c => DAQAnalogVACChannel.encode c
  | Frequency c => DAQAnalogFrequencyChannel.encode c
  | RTD c => DAQAnalogRTDChannel.encode c
  | Thermocouple c => DAQAnalogThermocoupleChannel.encode c
  | Current c => DAQAnalogCurrentChannel.encode c
  end.

End Analog.

(* ================================================================== *)
(** ** A reference instance of the parameters

    One codec and one set of code tables, to run the definitions on concrete
    channels: big-endian 32-bit integers, big-endian binary64 floats, one bit
    per digital line. *)

Module Reference.

Definition byte_of_Z (z : Z) : Byte.byte :=
  match Byte.of_N (Z.to_N (z mod 256)) with
  | Some b => b
  | None => Byte.x00
  end.

Fixpoint big_endian (n : nat) (z : Z) : bytes :=
  match n with
  | O => []
  | S n' => byte_of_Z (Z.shiftr z (8 * Z.of_nat n')) :: big_endian n' z
  end.

Definition float_bits (f : float) : Z :=
  match Prim2SF f with
  | S754_zero s => if s then 2 ^ 63 else 0
  | S754_infinity s => (if s then 2 ^ 63 else 0) + 0x7FF0000000000000
  | S754_nan => 0x7FF8000000000000
  | S754_finite s m e =>
      (if s then 2 ^ 63 else 0) +
      (if Z.pos m <? 2 ^ 52 then Z.pos m
       else (e + 1075) * 2 ^ 52 + (Z.pos m - 2 ^ 52))
  end.

Definition codec : Encoding := {|
  make_int z := big_endian 4 z;
  make_float f := big_endian 8 (float_bits f);
  make_optional_indexed_bit o :=
    match o with
    | None => big_endian 4 0
    | Some i => big_endian 4 (Z.shiftl 1 i)
    end;
  NULL_INTEGER := big_endian 4 0;
  ZERO_INT := big_endian 4 0
|}.

Definition tables : EnumTables := {|
  DAQConfigAlarm_value a :=
    match a with
    | DAQConfigAlarm.OFF => 0
    | DAQConfigAlarm.other n => 1 + Z.of_nat n
    end;
  DAQAnalogMeasuremenType_value m :=
    match m with
    | DAQAnalogMeasuremenType.OFF => 0
    | DAQAnalogMeasuremenType.Ohms => 1
    | DAQAnalogMeasuremenType.Ohms_4Wire => 0x10001
    | DAQAnalogMeasuremenType.VDC => 2
    | DAQAnalogMeasuremenType.VAC => 4
    | DAQAnalogMeasuremenType.Frequency => 8
    | DAQAnalogMeasuremenType.RTD => 16
    | DAQAnalogMeasuremenType.Thermocouple => 32
    | DAQAnalogMeasuremenType.Current => 0x10002
    end;
  DAQComputedMeasurementType_value m :=
    match m with
    | DAQComputedMeasurementType.Average => 0x8001
    | DAQComputedMeasurementType.AminusB => 0x8002
    | DAQComputedMeasurementType.Equation => 0x8003
    | DAQComputedMeasurementType.other n => 0x8004 + Z.of_nat n
    end;
  DAQRange_value r :=
    match r with
    | DAQRange.NONE => 0
    | DAQRange.Current_20mA => 0x4120
    | DAQRange.Current_100mA => 0x4210
    | DAQRange.other n => 0x5000 + Z.of_nat n
    end;
  DAQConfigSpeed_value s :=
    match s with
    | DAQConfigSpeed.SLOW => 0
    | DAQConfigSpeed.MEDIUM => 0x100
    | DAQConfigSpeed.FAST => 0x200
    end;
  DAQConfigTrigger_value t :=
    match t with
    | DAQConfigTrigger.INTERVAL => 0x20
    | DAQConfigTrigger.other n => Z.shiftl 0x40 (Z.of_nat n)
    end;
  DAQConfigBits_value b :=
    match b with
    | DAQConfigBits.FAHRENHEIT => 0x02
    | DAQConfigBits.TRIGGER_OUT => 0x04
    | DAQConfigBits.DRIFT_CORRECTION => 0x08
    | DAQConfigBits.TOTALIZER_DEBOUNCE => 0x10
    | DAQConfigBits.other n => Z.shiftl 0x400 (Z.of_nat n)
    end;
  DAQOhmsRange_value r :=
    match r with
    | DAQOhmsRange.Ohms_300 => 0x2110
    | DAQOhmsRange.Ohms_3k => 0x2210
    | DAQOhmsRange.other n => 0x2310 + Z.of_nat n
    end;
  DAQVDCRange_value r := match r with DAQVDCRange.other n => Z.of_nat n end;
  DAQVACRange_value r := match r with DAQVACRange.other n => Z.of_nat n end;
  DAQThermocoupleRange_value r :=
    match r with DAQThermocoupleRange.other n => Z.of_nat n end;
  DAQRTDRange_value r :=
    match r with
    | DAQRTDRange.RTD_FIXED_385 => 0x2020
    | DAQRTDRange.RTD_CUSTOM_385 => 0x2021
    | DAQRTDRange.other n => 0x2022 + Z.of_nat n
    end;
  DAQCurrentRange_value r :=
    match r with
    | DAQCurrentRange.Current_20mA => 0x4120
    | DAQCurrentRange.Current_100mA => 0x4210
    end
|}.

(** The defaults of the dataclass fields. *)
Definition channel : Config.DAQChannel := {|
  Config.use_channel_as_alarm_trigger := true;
  Config.alarm1_mode := DAQConfigAlarm.OFF;
  Config.alarm2_mode := DAQConfigAlarm.OFF;
  Config.alarm1_level := 0.0;
  Config.alarm2_level := 0.0;
  Config.alarm1_digital := None;
  Config.alarm2_digital := None;
  Config.mxab_multuplier := 1.0;
  Config.mxab_offset := 0.0
|}.

Definition equation_channel (eq : bytes) : Config.DAQComputedEquationChannel :=
  {| Config.equation_base := channel; Config.equation := eq |}.

Definition configuration (s : DAQConfigSpeed.t) (drift : bool)
    (trigs : list DAQConfigTrigger.t) : Config.DAQConfiguration := {|
  Config.speed := s;
  Config.temperature_fahrenheit := false;
  Config.trigger_out := false;
  Config.drift_correction := drift;
  Config.totalizer_debounce := true;
  Config.triggers := trigs;
  Config.interval_time := 1.0;
  Config.alarm_time := 1.0;
  Config.analog_channels := [];
  Config.computed_channels := []
|}.

Definition analog_base (multiplier offset : float) : Analog.DAQAnalogChannel :=
  {|
    Analog.use_channel_as_alarm_trigger := true;
    Analog.alarm1_mode := DAQConfigAlarm.OFF;
    Analog.alarm2_mode := DAQConfigAlarm.OFF;
    Analog.alarm1_level := 0.0;
    Analog.alarm2_level := 0.0;
    Analog.alarm1_digital := None;
    Analog.alarm2_digital := None;
    Analog.mxab_multuplier := multiplier;
    Analog.mxab_offset := offset
  |}.

Definition ohms (r : DAQOhmsRange.t) (four_wire : bool)
  : Analog.DAQAnalogOhmsChannel.t :=
  {| Analog.DAQAnalogOhmsChannel.super := analog_base 1.0 0.0;
     Analog.DAQAnalogOhmsChannel.range := r;
     Analog.DAQAnalogOhmsChannel.four_wire := four_wire |}.

Definition rtd (r : DAQRTDRange.t) (alpha r0 : float)
  : Analog.DAQAnalogRTDChannel.t :=
  {| Analog.DAQAnalogRTDChannel.super := analog_base 1.0 0.0;
     Analog.DAQAnalogRTDChannel.range := r;
     Analog.DAQAnalogRTDChannel.alpha := alpha;
     Analog.DAQAnalogRTDChannel.r0 := r0 |}.

Definition current (r : DAQCurrentRange.t) (shunt multiplier offset : float)
  : Analog.DAQAnalogCurrentChannel.t :=
  {| Analog.DAQAnalogCurrentChannel.super := analog_base multiplier offset;
     Analog.DAQAnalogCurrentChannel.range := r;
     Analog.DAQAnalogCurrentChannel.shunt_resistance := shunt |}.

End Reference.

(* ================================================================== *)
(** ** Definitions used to state the properties *)

(** The OR of a list of codes, and the loop that accumulates it. *)
Definition or_all (codes : list Z) : Z := fold_right Z.lor 0 codes.

(** [flag] is present in the bit field [x]. *)
Definition flag_set (x flag : Z) : bool := Z.land x flag =? flag.

(** The constraints of an RTD channel, as the specification words them. *)
Definition rtd_constraints_hold (c : Analog.DAQAnalogRTDChannel.t) : bool :=
  PyFloat.in_range 10.0 1010.0 (Analog.DAQAnalogRTDChannel.r0 c)
  && (if DAQRTDRange.eqb (Analog.DAQAnalogRTDChannel.range c)
           DAQRTDRange.RTD_FIXED_385
      then PrimFloat.eqb (Analog.DAQAnalogRTDChannel.alpha c) 0.0
      else if DAQRTDRange.eqb (Analog.DAQAnalogRTDChannel.range c)
                DAQRTDRange.RTD_CUSTOM_385
      then PyFloat.in_range 0.00374 0.00393 (Analog.DAQAnalogRTDChannel.alpha c)
      else true).

(** The calibration values a Current channel hands to the trailer. *)
Definition current_multiplier (c : Analog.DAQAnalogCurrentChannel.t) : float :=
  let m := PrimFloat.mul
             (Analog.mxab_multuplier (Analog.DAQAnalogCurrentChannel.super c))
             (PrimFloat.div 1.0 (Analog.DAQAnalogCurrentChannel.shunt_resistance c))
  in
  match Analog.DAQAnalogCurrentChannel.range c with
  | DAQCurrentRange.Current_20mA => PrimFloat.mul m 6250.0
  | DAQCurrentRange.Current_100mA => m
  end.

Definition current_offset (c : Analog.DAQAnalogCurrentChannel.t) : float :=
  match Analog.DAQAnalogCurrentChannel.range c with
  | DAQCurrentRange.Current_20mA =>
      PrimFloat.sub (Analog.mxab_offset (Analog.DAQAnalogCurrentChannel.super c)) 25.0
  | DAQCurrentRange.Current_100mA =>
      Analog.mxab_offset (Analog.DAQAnalogCurrentChannel.super c)
  end.

(** A current range as a member of the single [DAQRange] enumeration of
    [config.py]. *)
Definition legacy_range (r : DAQCurrentRange.t) : DAQRange.t :=
  match r with
  | DAQCurrentRange.Current_20mA => DAQRange.Current_20mA
  | DAQCurrentRange.Current_100mA => DAQRange.Current_100mA
  end.

(** 0x7000, with the low bit set for the 100 mA range. *)
Definition current_extra_bits (r : DAQCurrentRange.t) : Z :=
  Z.lor 0x7000
    (Z.b2z (DAQCurrentRange.eqb r DAQCurrentRange.Current_100mA)).

(** A configuration with another [drift_correction]. *)
Definition set_drift_correction (self : Config.DAQConfiguration) (d : bool)
  : Config.DAQConfiguration :=
  {| Config.speed := Config.speed self;
     Config.temperature_fahrenheit := Config.temperature_fahrenheit self;
     Config.trigger_out := Config.trigger_out self;
     Config.drift_correction := d;
     Config.totalizer_debounce := Config.totalizer_debounce self;
     Config.triggers := Config.triggers self;
     Config.interval_time := Config.interval_time self;
     Config.alarm_time := Config.alarm_time self;
     Config.analog_channels := Config.analog_channels self;
     Config.computed_channels := Config.computed_channels self |}.

(** The codes that [bits()] ORs together, in the order it does. *)
Definition bit_sources {tables : EnumTables} (self : Config.DAQConfiguration)
  : list Z :=
  [value (Config.speed self)] ++
  (if Config.drift_correction self
      || negb (DAQConfigSpeed.eqb (Config.speed self) DAQConfigSpeed.FAST)
   then [value DAQConfigBits.DRIFT_CORRECTION] else []) ++
  (if Config.trigger_out self
   then [value DAQConfigBits.TRIGGER_OUT] else []) ++
  (if Config.temperature_fahrenheit self
   then [value DAQConfigBits.FAHRENHEIT] else []) ++
  (if Config.totalizer_debounce self
   then [value DAQConfigBits.TOTALIZER_DEBOUNCE] else []) ++
  map value (Config.triggers self).

(** The flag code [f] is not zero and shares no bit with the speed code of
    the configuration, with the codes [others], or with the codes of the
    triggers in use. *)
Definition independent_flag {tables : EnumTables}
    (cfg : Config.DAQConfiguration) (f : Z) (others : list Z) : Prop :=
  f <> 0
  /\ forall c,
       In c (value (Config.speed cfg) :: others
             ++ map value (Config.triggers cfg)) ->
       Z.land c f = 0.

(** A codec of fixed widths: [wi] bytes for an int and for the two zero
    constants, [wf] for a float, [wb] for an optional indexed bit. *)
Definition fixed_width (codec : Encoding) (wi wf wb : nat) : Prop :=
  (forall z, List.length (make_int z) = wi)
  /\ (forall f, List.length (make_float f) = wf)
  /\ (forall o, List.length (make_optional_indexed_bit o) = wb)
  /\ List.length NULL_INTEGER = wi
  /\ List.length ZERO_INT = wi.

(** The length of what a channel of [config.py] writes before the trailer. *)
Definition config_header_length (wi wf : nat) (ch : Config.Channel) : nat :=
  match ch with
  | Config.Analog _ => 3 * wi + 2 * wf
  | _ => 5 * wi
  end.

(** The length of what a channel of [analog.py] writes before the trailer. *)
Definition analog_header_length (wi wf : nat) (ch : Analog.Channel) : nat :=
  match ch with
  | Analog.RTD _ => 3 * wi + 2 * wf
  | Analog.Current _ => 4 * wi + wf
  | _ => 5 * wi
  end.

(** [self.encode_common_trailer()], resolved on the class of [self]. *)
Definition analog_trailer {codec : Encoding} {tables : EnumTables}
    (self : Analog.Channel) : result bytes :=
  match self with
  | Analog.Ohms c => Analog.encode_common_trailer c
  | Analog.VDC c => Analog.encode_common_trailer c
  | Analog.VAC c => Analog.encode_common_trailer c
  | Analog.Frequency c => Analog.encode_common_trailer c
  | Analog.RTD c => Analog.encode_common_trailer c
  | Analog.Thermocouple c => Analog.encode_common_trailer c
  | Analog.Current c => Analog.encode_common_trailer c
  end.

(** Concrete channels. *)
Module Vectors.
Import Reference.

Definition equation_bytes : bytes := [Byte.x01; Byte.x02; Byte.x03].

Definition average : Config.DAQComputedAverageChannel :=
  {| Config.average_base := channel; Config.average_channel_bitmask := 3 |}.

Definition legacy_current (r : DAQRange.t) : Config.DAQAnalogChannel :=
  {| Config.analog_base := channel;
     Config.mtype := DAQAnalogMeasuremenType.Current;
     Config.aux1 := 50.0;
     Config.aux2 := 0.0;
     Config.open_thermocouple_detect := true;
     Config.range := r |}.
End Vectors.

(* ================================================================== *)
(** ** Bitwise helpers *)

Lemma Ok_inj {A} (a b : A) : Ok a = Ok b -> a = b.
Proof. intros H. inversion H. reflexivity. Qed.

Ltac bitwise :=
  apply Z.bits_inj'; intros ?n ?Hn;
  repeat rewrite ?Z.land_spec, ?Z.lor_spec, ?Z.bits_0.

Lemma land_lor_keep (a b f : Z) :
  Z.land a f = f -> Z.land (Z.lor a b) f = f.
Proof.
  intros H. bitwise.
  assert (E : Z.testbit (Z.land a f) n = Z.testbit f n) by (now rewrite H).
  rewrite Z.land_spec in E.
  destruct (Z.testbit a n), (Z.testbit b n), (Z.testbit f n);
    simpl in *; congruence.
Qed.

Lemma land_lor_self (a f : Z) : Z.land (Z.lor a f) f = f.
Proof.
  bitwise. destruct (Z.testbit a n), (Z.testbit f n); reflexivity.
Qed.

Lemma land_lor_clear (a b f : Z) :
  Z.land a f = 0 -> Z.land b f = 0 -> Z.land (Z.lor a b) f = 0.
Proof.
  intros Ha Hb. rewrite Z.land_lor_distr_l, Ha, Hb. reflexivity.
Qed.

Lemma fold_left_lor {A} (f : A -> Z) (l : list A) (acc : Z) :
  fold_left (fun result x => Z.lor result (f x)) l acc
  = Z.lor acc (or_all (map f l)).
Proof.
  revert acc. induction l as [| x l IH]; intros acc; simpl.
  - now rewrite Z.lor_0_r.
  - rewrite IH. now rewrite Z.lor_assoc.
Qed.

Lemma or_all_testbit (codes : list Z) (n : Z) :
  Z.testbit (or_all codes) n = existsb (fun c => Z.testbit c n) codes.
Proof.
  induction codes as [| c codes IH]; simpl.
  - apply Z.bits_0.
  - now rewrite Z.lor_spec, IH.
Qed.

Lemma existsb_same_elements {A} (p : A -> bool) (l1 l2 : list A) :
  (forall x, In x l1 <-> In x l2) -> existsb p l1 = existsb p l2.
Proof.
  intros H.
  destruct (existsb p l1) eqn:E1, (existsb p l2) eqn:E2; try reflexivity.
  - apply existsb_exists in E1 as [x [Hin Hp]].
    rewrite <- E2. symmetry. apply existsb_exists.
    exists x. split; [now apply H | assumption].
  - apply existsb_exists in E2 as [x [Hin Hp]].
    rewrite <- E1. apply existsb_exists.
    exists x. split; [now apply H | assumption].
Qed.

Lemma or_all_same_elements (l1 l2 : list Z) :
  (forall c, In c l1 <-> In c l2) -> or_all l1 = or_all l2.
Proof.
  intros H. apply Z.bits_inj'. intros n _.
  rewrite !or_all_testbit. now apply existsb_same_elements.
Qed.

Lemma or_all_land_clear (codes : list Z) (f : Z) :
  (forall c, In c codes -> Z.land c f = 0) -> Z.land (or_all codes) f = 0.
Proof.
  induction codes as [| c codes IH]; intros H; simpl.
  - reflexivity.
  - apply land_lor_clear.
    + apply H. now left.
    + apply IH. intros c' Hc'. apply H. now right.
Qed.

(* ================================================================== *)
(** ** Properties of [src/config.py] *)

Section ConfigFacts.
Context {codec : Encoding} {tables : EnumTables}.
Import Config.

(** *** The alarm bits and the common trailer *)

Lemma alarm_bits_bit0 (c : DAQChannel) :
  Z.testbit (alarm_bits c) 0 = use_channel_as_alarm_trigger c.
Proof.
  unfold alarm_bits. cbv zeta.
  rewrite !Z.lor_spec, !Z.shiftl_spec_low by lia.
  destruct (use_channel_as_alarm_trigger c); reflexivity.
Qed.

(** C3: for every channel, [alarm_bits()] is the bitwise OR of 1 if
    [use_channel_as_alarm_trigger] is set else 0, of the code of
    [alarm1_mode] shifted left by 1, and of the code of [alarm2_mode]
    shifted left by 3; the trigger flag is bit 0 of the result. *)
Theorem alarm_bits_spec (ch : Channel) :
  let c := common ch in
  alarm_bits c
  = Z.lor (Z.lor (Z.b2z (use_channel_as_alarm_trigger c))
                 (Z.shiftl (value (alarm1_mode c)) 1))
          (Z.shiftl (value (alarm2_mode c)) 3)
  /\ Z.testbit (alarm_bits c) 0 = use_channel_as_alarm_trigger c.
Proof.
  cbv zeta. split.
  - unfold alarm_bits.
    destruct (use_channel_as_alarm_trigger (common ch)); reflexivity.
  - apply alarm_bits_bit0.
Qed.

(** C2: for every channel, the common trailer is, in this order, the
    alarm bits as an int, the two alarm levels as floats, the two optional
    digital lines as optional indexed bits, and the calibration multiplier
    and offset as floats; in [config.py] no class changes the calibration
    values, so the effective ones are the raw ones. *)
Theorem write_common_trailer_spec (ch : Channel) :
  let c := common ch in
  write_common_trailer c
  = List.concat [ make_int (alarm_bits c);
             make_float (alarm1_level c);
             make_float (alarm2_level c);
             make_optional_indexed_bit (alarm1_digital c);
             make_optional_indexed_bit (alarm2_digital c);
             make_float (mxab_multuplier c);
             make_float (mxab_offset c) ].
Proof.
  cbv zeta. unfold write_common_trailer. simpl List.concat.
  now rewrite app_nil_r.
Qed.

(** Every payload that [write_with_aux] returns ends with the trailer. *)
Lemma write_with_aux_ends_with_trailer (ch : Channel) (aux_offset : Z)
    (payload aux : bytes) :
  write_with_aux ch aux_offset = Ok (payload, aux) ->
  exists head, payload = head ++ write_common_trailer (common ch).
Proof.
  destruct ch; simpl; intros H; inversion H; subst; clear H;
    eexists; unfold DAQAnalogChannel_write,
      DAQComputedAverageChannel_write, DAQComputedAminusBChannel_write,
      DAQComputedAminusAvgChannel_write;
    repeat rewrite app_assoc; reflexivity.
Qed.

(** *** The equation channel *)

(** C9: for every equation channel and every aux offset,
    [write_with_aux] returns the equation bytes unchanged as auxiliary
    payload, and a main payload made of the Equation type code, three
    zero-int slots, the aux offset as an int, and the common trailer. *)
Theorem equation_write_with_aux_spec (c : DAQComputedEquationChannel)
    (aux_offset : Z) :
  write_with_aux (Equation c) aux_offset
  = Ok (List.concat [ make_int (value DAQComputedMeasurementType.Equation);
                 NULL_INTEGER; NULL_INTEGER; NULL_INTEGER;
                 make_int aux_offset;
                 write_common_trailer (equation_base c) ],
        equation c).
Proof.
  simpl. unfold DAQComputedEquationChannel_write_with_aux.
  now rewrite app_nil_r.
Qed.

(** *** Which calls return *)

Lemma write_with_aux_returns (ch : Channel) (aux_offset : Z) :
  concrete ch = true ->
  exists payload aux, write_with_aux ch aux_offset = Ok (payload, aux).
Proof.
  destruct ch; simpl; intros H; try discriminate;
    unfold DAQChannel_write_with_aux,
      DAQComputedEquationChannel_write_with_aux; simpl; eauto.
Qed.

Lemma write_returns (ch : Channel) :
  concrete ch = true ->
  (forall c, ch <> Equation c) ->
  exists payload, write ch = Ok payload.
Proof.
  destruct ch; simpl; intros H Hne; try discriminate; eauto.
  now contradiction (Hne c).
Qed.

Lemma write_raises_on_equation (c : DAQComputedEquationChannel) :
  raises (write (Equation c)) = true
  /\ forall aux_offset,
       raises (DAQChannel_write_with_aux (Equation c) aux_offset) = true.
Proof. split; reflexivity. Qed.

(** *** The configuration bits *)

Lemma bits_decompose (cfg : DAQConfiguration) :
  bits cfg = Z.lor (bits (set_triggers cfg []))
                   (or_all (map value (triggers cfg))).
Proof. unfold bits. simpl. apply fold_left_lor. Qed.

Lemma bits_same_elements (cfg : DAQConfiguration)
    (l : list DAQConfigTrigger.t) :
  (forall t, In t (triggers cfg) <-> In t l) ->
  bits (set_triggers cfg l) = bits cfg.
Proof.
  intros H.
  rewrite (bits_decompose cfg), (bits_decompose (set_triggers cfg l)).
  simpl. f_equal. apply or_all_same_elements.
  intros c. rewrite !in_map_iff.
  split; intros [t [Ht Hin]]; exists t; (split; [assumption |]);
    now apply H.
Qed.

Lemma bits_drift_present (cfg : DAQConfiguration) :
  drift_correction cfg
  || negb (DAQConfigSpeed.eqb (speed cfg) DAQConfigSpeed.FAST) = true ->
  flag_set (bits cfg) (value DAQConfigBits.DRIFT_CORRECTION) = true.
Proof.
  intros H. unfold flag_set. apply Z.eqb_eq.
  rewrite bits_decompose. apply land_lor_keep.
  unfold bits. simpl. rewrite H.
  destruct (trigger_out cfg), (temperature_fahrenheit cfg),
    (totalizer_debounce cfg);
    repeat first [apply land_lor_self | apply land_lor_keep].
Qed.

Lemma bits_drift_absent (cfg : DAQConfiguration) :
  let dc := value DAQConfigBits.DRIFT_CORRECTION in
  Z.land (value DAQConfigSpeed.FAST) dc = 0 ->
  Z.land (value DAQConfigBits.TRIGGER_OUT) dc = 0 ->
  Z.land (value DAQConfigBits.FAHRENHEIT) dc = 0 ->
  Z.land (value DAQConfigBits.TOTALIZER_DEBOUNCE) dc = 0 ->
  (forall t, In t (triggers cfg) -> Z.land (value t) dc = 0) ->
  drift_correction cfg = false ->
  speed cfg = DAQConfigSpeed.FAST ->
  Z.land (bits cfg) dc = 0.
Proof.
  cbv zeta. intros Hfast Hout Hfahr Htot Htrig Hdrift Hspeed.
  rewrite bits_decompose. apply land_lor_clear.
  - unfold bits. simpl. rewrite Hdrift, Hspeed. simpl.
    destruct (trigger_out cfg), (temperature_fahrenheit cfg),
      (totalizer_debounce cfg);
      repeat (apply land_lor_clear; try assumption); assumption.
  - apply or_all_land_clear. intros c Hc.
    apply in_map_iff in Hc as [t [<- Hin]]. now apply Htrig.
Qed.

(** C8: the drift-correction flag is present in [bits()] if and only if
    [drift_correction] is set or [speed] is not FAST.  The code tables are
    parameters: the flag is a non-zero code that shares no bit with the
    FAST code, the three other flags and the codes of the triggers in
    use. *)
Theorem bits_drift_correction_spec (cfg : DAQConfiguration) :
  let dc := value DAQConfigBits.DRIFT_CORRECTION in
  dc <> 0 ->
  Z.land (value DAQConfigSpeed.FAST) dc = 0 ->
  Z.land (value DAQConfigBits.TRIGGER_OUT) dc = 0 ->
  Z.land (value DAQConfigBits.FAHRENHEIT) dc = 0 ->
  Z.land (value DAQConfigBits.TOTALIZER_DEBOUNCE) dc = 0 ->
  (forall t, In t (triggers cfg) -> Z.land (value t) dc = 0) ->
  (flag_set (bits cfg) dc = true
   <-> drift_correction cfg = true \/ speed cfg <> DAQConfigSpeed.FAST).
Proof.
  cbv zeta. intros Hnz Hfast Hout Hfahr Htot Htrig. split.
  - intros Hset.
    destruct (drift_correction cfg) eqn:Hdrift; [now left | right].
    intros Hspeed.
    unfold flag_set in Hset. apply Z.eqb_eq in Hset.
    rewrite (bits_drift_absent cfg) in Hset by assumption.
    now apply Hnz.
  - intros H. apply bits_drift_present.
    destruct H as [-> | Hspeed]; [reflexivity |].
    unfold DAQConfigSpeed.eqb.
    destruct (DAQConfigSpeed.eq_dec (speed cfg) DAQConfigSpeed.FAST);
      [contradiction | apply orb_true_r].
Qed.

(** C10: [bits()] depends on [triggers] only through the OR of the trigger
    codes: it is the bits of the configuration without triggers, OR-ed
    with the OR of all trigger codes; so a permutation of the list, or a
    second copy of one of its entries, leaves [bits()] unchanged. *)
Theorem bits_triggers_spec (cfg : DAQConfiguration) :
  bits cfg = Z.lor (bits (set_triggers cfg []))
                   (or_all (map value (triggers cfg)))
  /\ (forall l, Permutation (triggers cfg) l ->
                bits (set_triggers cfg l) = bits cfg)
  /\ (forall l1 t l2, triggers cfg = l1 ++ t :: l2 ->
                      bits (set_triggers cfg (l1 ++ t :: t :: l2))
                      = bits cfg).
Proof.
  split; [apply bits_decompose | split].
  - intros l Hperm. apply bits_same_elements. intros t. split.
    + now apply Permutation_in.
    + apply Permutation_in. now apply Permutation_sym.
  - intros l1 t l2 Heq. apply bits_same_elements. intros x.
    rewrite Heq, !in_app_iff. simpl. tauto.
Qed.

End ConfigFacts.

(* ================================================================== *)
(** ** Float comparisons *)

Module FloatFacts.

Lemma Prim2SF_0 : Prim2SF 0 = S754_zero false.
Proof. reflexivity. Qed.

Lemma Prim2SF_10 : Prim2SF 10 = S754_finite false 5629499534213120 (-49).
Proof. vm_compute. reflexivity. Qed.

Lemma SFcompare_antisym (x y : spec_float) :
  SFcompare y x = option_map CompOpp (SFcompare x y).
Proof.
  destruct x as [sx | sx | | sx mx ex], y as [sy | sy | | sy my ey];
    simpl; try reflexivity;
    try (destruct sx; reflexivity); try (destruct sy; reflexivity);
    try (destruct sx, sy; reflexivity).
  destruct sx, sy; try reflexivity;
    rewrite (Z.compare_antisym ex ey);
    destruct (ex ?= ey); simpl; try reflexivity;
    rewrite (Pos.compare_cont_antisym mx my Eq); reflexivity.
Qed.

Lemma SFcompare_refl (x : spec_float) :
  x <> S754_nan -> SFcompare x x = Some Eq.
Proof.
  destruct x as [s | s | | s m e]; simpl; intros H;
    try reflexivity; try congruence.
  - destruct s; reflexivity.
  - destruct s; rewrite Z.compare_refl;
      change (Pos.compare_cont Eq m m) with (Pos.compare m m);
      rewrite Pos.compare_refl; reflexivity.
Qed.

Lemma SFcompare_nan_r (x : spec_float) : SFcompare x S754_nan = None.
Proof. destruct x; reflexivity. Qed.

Lemma isnan_false (x : float) :
  PyFloat.isnan x = false <-> Prim2SF x <> S754_nan.
Proof.
  unfold PyFloat.isnan. rewrite FloatAxioms.eqb_spec. unfold SFeqb. split.
  - intros H E. rewrite E in H. discriminate.
  - intros H. now rewrite SFcompare_refl.
Qed.

(** On numbers, [x < y] is the negation of [y <= x]. *)
Lemma ltb_negb_leb (x y : float) :
  PyFloat.isnan x = false -> PyFloat.isnan y = false ->
  PrimFloat.ltb x y = negb (PrimFloat.leb y x).
Proof.
  rewrite !isnan_false. intros Hx Hy.
  rewrite FloatAxioms.ltb_spec, FloatAxioms.leb_spec.
  unfold SFltb, SFleb.
  rewrite (SFcompare_antisym (Prim2SF x) (Prim2SF y)).
  destruct (Prim2SF x) as [sx | sx | | sx mx ex];
    destruct (Prim2SF y) as [sy | sy | | sy my ey];
    try congruence;
    match goal with
    | |- context [SFcompare ?a ?b] =>
        destruct (SFcompare a b) as [[ | | ] |] eqn:E;
        try reflexivity; simpl in E; discriminate
    end.
Qed.

(** A NaN compares false with everything. *)
Lemma ltb_nan_l (x y : float) : PyFloat.isnan x = true -> PrimFloat.ltb x y = false.
Proof.
  intros H. rewrite FloatAxioms.ltb_spec. unfold SFltb.
  destruct (Prim2SF x) eqn:E; try reflexivity;
    (assert (PyFloat.isnan x = false) by (apply isnan_false; congruence));
    congruence.
Qed.

Lemma ltb_nan_r (x y : float) : PyFloat.isnan y = true -> PrimFloat.ltb x y = false.
Proof.
  intros H. rewrite FloatAxioms.ltb_spec. unfold SFltb.
  destruct (Prim2SF y) eqn:E;
    try (assert (PyFloat.isnan y = false) by (apply isnan_false; congruence);
         congruence).
  now rewrite SFcompare_nan_r.
Qed.

(** A float that is not below 10 is not a zero. *)
Lemma not_below_10_nonzero (x : float) :
  PrimFloat.ltb x 10 = false -> PrimFloat.eqb x 0 = false.
Proof.
  rewrite FloatAxioms.eqb_spec, FloatAxioms.ltb_spec, Prim2SF_10, Prim2SF_0.
  unfold SFeqb, SFltb.
  destruct (Prim2SF x) as [s | s | | s m e]; unfold SFcompare;
    try congruence; destruct s; congruence.
Qed.

(** Floats that differ under [==] are different floats. *)
Lemma eqb_false_neq (x y : float) :
  PrimFloat.eqb x y = false -> PyFloat.isnan x = false -> x <> y.
Proof.
  intros H Hx E. subst y. unfold PyFloat.isnan in Hx.
  rewrite H in Hx. discriminate.
Qed.

End FloatFacts.

(* ================================================================== *)
(** ** Properties of [analog.py] *)

Section AnalogFacts.
Context {codec : Encoding} {tables : EnumTables}.
Import Analog.

(** *** The trailer of a class that keeps the hooks of the base class *)

Lemma encode_common_trailer_default {T} `{Calibration T} (self : T) :
  _modified_mxab_multiplier self
  = default_modified_mxab_multiplier (base self) ->
  _modified_mxab_offset self = default_modified_mxab_offset (base self) ->
  encode_common_trailer self
  = Ok (List.concat
          [ make_int (alarm_bits (base self));
            make_float (alarm1_level (base self));
            make_float (alarm2_level (base self));
            make_optional_indexed_bit (alarm1_digital (base self));
            make_optional_indexed_bit (alarm2_digital (base self));
            make_float (mxab_multuplier (base self));
            make_float (mxab_offset (base self)) ]).
Proof.
  intros Hm Ho. unfold encode_common_trailer. rewrite Hm, Ho.
  simpl. now rewrite app_nil_r.
Qed.

(** *** Ohms *)

(** C4: an Ohms channel with [four_wire] false and range 300 Ohm or 3 kOhm
    is refused with a configuration error; with [four_wire] true it is
    built, and so is any channel of another range. *)
Theorem ohms_construct_spec (c : DAQAnalogOhmsChannel.t) :
  (DAQAnalogOhmsChannel.four_wire c = false ->
   DAQAnalogOhmsChannel.range c = DAQOhmsRange.Ohms_300
   \/ DAQAnalogOhmsChannel.range c = DAQOhmsRange.Ohms_3k ->
   exists msg, construct (Ohms c) = Raise (ConfigError msg))
  /\ (DAQAnalogOhmsChannel.four_wire c = true ->
      construct (Ohms c) = Ok (Ohms c))
  /\ (DAQAnalogOhmsChannel.range c <> DAQOhmsRange.Ohms_300 ->
      DAQAnalogOhmsChannel.range c <> DAQOhmsRange.Ohms_3k ->
      construct (Ohms c) = Ok (Ohms c)).
Proof.
  unfold construct, __post_init__, DAQAnalogOhmsChannel.__post_init__.
  repeat split.
  - intros Hw [Hr | Hr]; rewrite Hw, Hr; simpl; eauto.
  - intros Hw. rewrite Hw. reflexivity.
  - intros H300 H3k. unfold DAQOhmsRange.eqb.
    destruct (DAQOhmsRange.eq_dec _ DAQOhmsRange.Ohms_300);
      [contradiction |].
    destruct (DAQOhmsRange.eq_dec _ DAQOhmsRange.Ohms_3k);
      [contradiction |].
    now rewrite andb_false_r.
Qed.

(** *** RTD *)

(** On numbers the constructor refuses exactly the channels that break a
    constraint. *)
Lemma rtd_post_init_on_numbers (c : DAQAnalogRTDChannel.t) :
  PyFloat.isnan (DAQAnalogRTDChannel.r0 c) = false ->
  PyFloat.isnan (DAQAnalogRTDChannel.alpha c) = false ->
  is_config_error (DAQAnalogRTDChannel.__post_init__ c)
  = negb (rtd_constraints_hold c).
Proof.
  intros Hr0 Halpha.
  unfold DAQAnalogRTDChannel.__post_init__, rtd_constraints_hold,
    PyFloat.in_range, PyFloat.lt, PyFloat.gt, PyFloat.ne.
  rewrite (FloatFacts.ltb_negb_leb (DAQAnalogRTDChannel.r0 c) 10.0)
    by (assumption || reflexivity).
  rewrite (FloatFacts.ltb_negb_leb 1010.0 (DAQAnalogRTDChannel.r0 c))
    by (assumption || reflexivity).
  rewrite (FloatFacts.ltb_negb_leb (DAQAnalogRTDChannel.alpha c) 0.00374)
    by (assumption || reflexivity).
  rewrite (FloatFacts.ltb_negb_leb 0.00393 (DAQAnalogRTDChannel.alpha c))
    by (assumption || reflexivity).
  destruct (PrimFloat.leb 10.0 (DAQAnalogRTDChannel.r0 c));
    destruct (PrimFloat.leb (DAQAnalogRTDChannel.r0 c) 1010.0);
    simpl; try reflexivity.
  destruct (DAQRTDRange.eqb _ DAQRTDRange.RTD_FIXED_385).
  - destruct (PrimFloat.eqb (DAQAnalogRTDChannel.alpha c) 0.0);
      reflexivity.
  - destruct (DAQRTDRange.eqb _ DAQRTDRange.RTD_CUSTOM_385);
      [| reflexivity].
    destruct (PrimFloat.leb 0.00374 (DAQAnalogRTDChannel.alpha c));
      destruct (PrimFloat.leb (DAQAnalogRTDChannel.alpha c) 0.00393);
      reflexivity.
Qed.

(** A NaN [r0] passes both comparisons of the constructor. *)
Lemma rtd_post_init_nan_r0 (c : DAQAnalogRTDChannel.t) :
  PyFloat.isnan (DAQAnalogRTDChannel.r0 c) = true ->
  DAQAnalogRTDChannel.range c = DAQRTDRange.RTD_FIXED_385 ->
  DAQAnalogRTDChannel.alpha c = 0.0%float ->
  DAQAnalogRTDChannel.__post_init__ c = Ok tt.
Proof.
  intros Hnan Hrange Halpha.
  unfold DAQAnalogRTDChannel.__post_init__, PyFloat.lt, PyFloat.gt.
  rewrite FloatFacts.ltb_nan_l, FloatFacts.ltb_nan_r by assumption.
  rewrite Hrange, Halpha. reflexivity.
Qed.

(** *** Current *)

Lemma current_shunt_nonzero (c : DAQAnalogCurrentChannel.t) :
  DAQAnalogCurrentChannel.__post_init__ c = Ok tt ->
  PrimFloat.eqb (DAQAnalogCurrentChannel.shunt_resistance c) 0 = false.
Proof.
  unfold DAQAnalogCurrentChannel.__post_init__, PyFloat.lt.
  destruct (PrimFloat.ltb (DAQAnalogCurrentChannel.shunt_resistance c) 10)
    eqn:E; simpl; [discriminate |].
  intros _. now apply FloatFacts.not_below_10_nonzero.
Qed.

Lemma current_modified_multiplier (c : DAQAnalogCurrentChannel.t) :
  DAQAnalogCurrentChannel.__post_init__ c = Ok tt ->
  DAQAnalogCurrentChannel._modified_mxab_multiplier c
  = Ok (current_multiplier c).
Proof.
  intros H.
  unfold DAQAnalogCurrentChannel._modified_mxab_multiplier,
    PyFloat.truediv, current_multiplier.
  rewrite (current_shunt_nonzero c H). simpl.
  destruct (DAQAnalogCurrentChannel.range c); reflexivity.
Qed.

Lemma current_modified_offset (c : DAQAnalogCurrentChannel.t) :
  DAQAnalogCurrentChannel._modified_mxab_offset c = Ok (current_offset c).
Proof.
  unfold DAQAnalogCurrentChannel._modified_mxab_offset, current_offset.
  destruct (DAQAnalogCurrentChannel.range c); reflexivity.
Qed.

Lemma current_trailer (c : DAQAnalogCurrentChannel.t) :
  DAQAnalogCurrentChannel.__post_init__ c = Ok tt ->
  encode_common_trailer c
  = Ok (List.concat
          [ make_int (alarm_bits (base c));
            make_float (alarm1_level (base c));
            make_float (alarm2_level (base c));
            make_optional_indexed_bit (alarm1_digital (base c));
            make_optional_indexed_bit (alarm2_digital (base c));
            make_float (current_multiplier c);
            make_float (current_offset c) ]).
Proof.
  intros H. unfold encode_common_trailer.
  change (_modified_mxab_multiplier c)
    with (DAQAnalogCurrentChannel._modified_mxab_multiplier c).
  change (_modified_mxab_offset c)
    with (DAQAnalogCurrentChannel._modified_mxab_offset c).
  rewrite (current_modified_multiplier c H), current_modified_offset.
  simpl. now rewrite app_nil_r.
Qed.

End AnalogFacts.

(* ================================================================== *)
(** ** The Current channel, and which encodings return *)

Section ChannelFacts.
Context {codec : Encoding} {tables : EnumTables}.

(** C6, as the code has it: for every constructed Current channel the
    multiplier written into the trailer is [mxab_multuplier] times the
    rounded reciprocal [1.0 / shunt_resistance], times 6250.0 for the
    20 mA range; the offset written is [mxab_offset - 25.0] for the 20 mA
    range and [mxab_offset] otherwise. *)
Theorem current_calibration_spec (c : Analog.DAQAnalogCurrentChannel.t) :
  Analog.DAQAnalogCurrentChannel.__post_init__ c = Ok tt ->
  let multiplier := Analog.mxab_multuplier (Analog.base c) in
  let offset := Analog.mxab_offset (Analog.base c) in
  let shunt := Analog.DAQAnalogCurrentChannel.shunt_resistance c in
  let is_20mA :=
    DAQCurrentRange.eqb (Analog.DAQAnalogCurrentChannel.range c)
      DAQCurrentRange.Current_20mA in
  let effective_multiplier :=
    if is_20mA
    then PrimFloat.mul (PrimFloat.mul multiplier (PrimFloat.div 1.0 shunt))
           6250.0
    else PrimFloat.mul multiplier (PrimFloat.div 1.0 shunt) in
  let effective_offset :=
    if is_20mA then PrimFloat.sub offset 25.0 else offset in
  Analog._modified_mxab_multiplier c = Ok effective_multiplier
  /\ Analog._modified_mxab_offset c = Ok effective_offset
  /\ Analog.encode_common_trailer c
     = Ok (List.concat
             [ make_int (Analog.alarm_bits (Analog.base c));
               make_float (Analog.alarm1_level (Analog.base c));
               make_float (Analog.alarm2_level (Analog.base c));
               make_optional_indexed_bit
                 (Analog.alarm1_digital (Analog.base c));
               make_optional_indexed_bit
                 (Analog.alarm2_digital (Analog.base c));
               make_float effective_multiplier;
               make_float effective_offset ]).
Proof.
  intros H. cbv zeta.
  assert (Em : (if DAQCurrentRange.eqb
                     (Analog.DAQAnalogCurrentChannel.range c)
                     DAQCurrentRange.Current_20mA
                then PrimFloat.mul
                       (PrimFloat.mul
                          (Analog.mxab_multuplier (Analog.base c))
                          (PrimFloat.div 1.0
                             (Analog.DAQAnalogCurrentChannel.shunt_resistance
                                c)))
                       6250.0
                else PrimFloat.mul
                       (Analog.mxab_multuplier (Analog.base c))
                       (PrimFloat.div 1.0
                          (Analog.DAQAnalogCurrentChannel.shunt_resistance
                             c)))
               = current_multiplier c).
  { unfold current_multiplier.
    destruct (Analog.DAQAnalogCurrentChannel.range c); reflexivity. }
  assert (Eo : (if DAQCurrentRange.eqb
                     (Analog.DAQAnalogCurrentChannel.range c)
                     DAQCurrentRange.Current_20mA
                then PrimFloat.sub (Analog.mxab_offset (Analog.base c)) 25.0
                else Analog.mxab_offset (Analog.base c))
               = current_offset c).
  { unfold current_offset.
    destruct (Analog.DAQAnalogCurrentChannel.range c); reflexivity. }
  rewrite Em, Eo. repeat split.
  - now apply current_modified_multiplier.
  - apply current_modified_offset.
  - now apply current_trailer.
Qed.

(** C7: for every constructed Current channel the extra-bits field of the
    main payload is 0x7000, with the low bit set exactly for the 100 mA
    range; [extra_bits()] of [config.py] gives the same value for a
    channel of type Current on either current range, and [write()] puts it
    in the same place. *)
Theorem current_extra_bits_spec :
  (forall c : Analog.DAQAnalogCurrentChannel.t,
     Analog.DAQAnalogCurrentChannel.__post_init__ c = Ok tt ->
     exists trailer,
       Analog.encode_common_trailer c = Ok trailer
       /\ Analog.encode (Analog.Current c)
          = Ok (List.concat
                  [ make_int (value DAQAnalogMeasuremenType.Current);
                    make_int
                      (value (Analog.DAQAnalogCurrentChannel.range c));
                    make_float
                      (Analog.DAQAnalogCurrentChannel.shunt_resistance c);
                    ZERO_INT;
                    make_int
                      (current_extra_bits
                         (Analog.DAQAnalogCurrentChannel.range c));
                    trailer ]))
  /\ (forall (a : Config.DAQAnalogChannel) (r : DAQCurrentRange.t),
        Config.mtype a = DAQAnalogMeasuremenType.Current ->
        Config.range a = legacy_range r ->
        Config.extra_bits a = current_extra_bits r
        /\ Config.write (Config.Analog a)
           = Ok (List.concat
                   [ make_int (value DAQAnalogMeasuremenType.Current);
                     make_int (value (legacy_range r));
                     make_float (Config.aux1 a);
                     make_float (Config.aux2 a);
                     make_int (current_extra_bits r);
                     Config.write_common_trailer (Config.analog_base a) ]))
  /\ (current_extra_bits DAQCurrentRange.Current_100mA = 0x7001
      /\ current_extra_bits DAQCurrentRange.Current_20mA = 0x7000).
Proof.
  split; [| split; [| split; reflexivity]].
  - intros c H. eexists. split; [now apply current_trailer |].
    simpl. unfold Analog.DAQAnalogCurrentChannel.encode.
    rewrite (current_trailer c H). simpl. rewrite !app_nil_r.
    destruct (Analog.DAQAnalogCurrentChannel.range c); reflexivity.
  - intros a r Hm Hr.
    assert (E : Config.extra_bits a = current_extra_bits r).
    { unfold Config.extra_bits. rewrite Hm, Hr.
      destruct r; reflexivity. }
    split; [exact E |].
    simpl. unfold Config.DAQAnalogChannel_write.
    rewrite E, Hm, Hr. simpl. now rewrite app_nil_r.
Qed.

(** Every constructed analog channel of [analog.py] encodes. *)
Lemma analog_encode_returns (fields ch : Analog.Channel) :
  Analog.construct fields = Ok ch ->
  exists payload, Analog.encode ch = Ok payload.
Proof.
  unfold Analog.construct.
  destruct (Analog.__post_init__ fields) as [[] |] eqn:H; simpl;
    intros E; inversion E; subst; clear E.
  destruct ch as [c | c | c | c | c | c | c]; simpl;
    try (eexists; reflexivity).
  unfold Analog.DAQAnalogCurrentChannel.encode.
  simpl in H. rewrite (current_trailer c H). simpl. eauto.
Qed.

(** C1, as the code has it: [write_with_aux], resolved on the class of
    the object, returns on every channel of a class that implements
    [write] or [write_with_aux]; [write] returns on all of these except
    the Equation channel, which implements [write_with_aux] only; and
    every constructed analog channel of [analog.py] encodes. *)
Theorem encode_returns :
  (forall (ch : Config.Channel) (aux_offset : Z),
     Config.concrete ch = true ->
     exists payload aux,
       Config.write_with_aux ch aux_offset = Ok (payload, aux))
  /\ (forall ch : Config.Channel,
        Config.concrete ch = true ->
        (forall c, ch <> Config.Equation c) ->
        exists payload, Config.write ch = Ok payload)
  /\ (forall fields ch : Analog.Channel,
        Analog.construct fields = Ok ch ->
        exists payload, Analog.encode ch = Ok payload).
Proof.
  split; [| split].
  - intros ch aux_offset H. now apply write_with_aux_returns.
  - intros ch H Hne. now apply write_returns.
  - apply analog_encode_returns.
Qed.

End ChannelFacts.

(* ================================================================== *)
(** ** The definitions on concrete channels *)

(** *** Ohms *)

Lemma ohms_construct_witness :
  (exists msg,
     Analog.construct
       (Analog.Ohms (Reference.ohms DAQOhmsRange.Ohms_300 false))
     = Raise (ConfigError msg))
  /\ (exists msg,
        Analog.construct
          (Analog.Ohms (Reference.ohms DAQOhmsRange.Ohms_3k false))
        = Raise (ConfigError msg))
  /\ Analog.construct (Analog.Ohms (Reference.ohms DAQOhmsRange.Ohms_3k true))
     = Ok (Analog.Ohms (Reference.ohms DAQOhmsRange.Ohms_3k true))
  /\ Analog.construct
       (Analog.Ohms (Reference.ohms (DAQOhmsRange.other 0) false))
     = Ok (Analog.Ohms (Reference.ohms (DAQOhmsRange.other 0) false)).
Proof.
  split; [| split; [| split]].
  - apply (proj1 (ohms_construct_spec
                    (Reference.ohms DAQOhmsRange.Ohms_300 false)));
      [reflexivity | left; reflexivity].
  - apply (proj1 (ohms_construct_spec
                    (Reference.ohms DAQOhmsRange.Ohms_3k false)));
      [reflexivity | right; reflexivity].
  - apply (proj1 (proj2 (ohms_construct_spec
                           (Reference.ohms DAQOhmsRange.Ohms_3k true)))).
    reflexivity.
  - apply (proj2 (proj2 (ohms_construct_spec
                           (Reference.ohms (DAQOhmsRange.other 0) false))));
      discriminate.
Defined.

(** *** RTD *)

(** The boundary cases of the RTD constraints. *)
Lemma rtd_boundary_cases :
  let fixed r0 := Reference.rtd DAQRTDRange.RTD_FIXED_385 0.0 r0 in
  let custom alpha := Reference.rtd DAQRTDRange.RTD_CUSTOM_385 alpha 100.0 in
  is_config_error (Analog.DAQAnalogRTDChannel.__post_init__ (fixed 5.0%float))
  = true
  /\ Analog.DAQAnalogRTDChannel.__post_init__ (fixed 10.0%float) = Ok tt
  /\ Analog.DAQAnalogRTDChannel.__post_init__ (fixed 1010.0%float) = Ok tt
  /\ is_config_error
       (Analog.DAQAnalogRTDChannel.__post_init__
          (Reference.rtd DAQRTDRange.RTD_FIXED_385 0.00385 100.0))
     = true
  /\ Analog.DAQAnalogRTDChannel.__post_init__ (custom 0.00374%float) = Ok tt
  /\ Analog.DAQAnalogRTDChannel.__post_init__ (custom 0.00393%float) = Ok tt
  /\ is_config_error
       (Analog.DAQAnalogRTDChannel.__post_init__ (custom 0.00373%float))
     = true.
Proof. cbv zeta. repeat split; vm_compute; reflexivity. Qed.

(** C5: the constructor of an RTD channel does not refuse every [r0]
    outside [10.0, 1010.0], nor every [alpha] outside [0.00374, 0.00393] on
    the custom-385 range: a NaN is outside both intervals, it passes both
    comparisons [<] and [>], and the channel is built. *)
Theorem rtd_nan_is_accepted :
  let c1 := Reference.rtd DAQRTDRange.RTD_FIXED_385 0.0 PrimFloat.nan in
  let c2 := Reference.rtd DAQRTDRange.RTD_CUSTOM_385 PrimFloat.nan 100.0 in
  (PyFloat.in_range 10.0 1010.0 (Analog.DAQAnalogRTDChannel.r0 c1) = false
   /\ rtd_constraints_hold c1 = false
   /\ Analog.construct (Analog.RTD c1) = Ok (Analog.RTD c1))
  /\ (PyFloat.in_range 0.00374 0.00393 (Analog.DAQAnalogRTDChannel.alpha c2)
      = false
      /\ rtd_constraints_hold c2 = false
      /\ Analog.construct (Analog.RTD c2) = Ok (Analog.RTD c2)).
Proof. cbv zeta. repeat split; vm_compute; reflexivity. Qed.

(** *** Current *)

(** The shunt boundaries: 9.9 is refused, 10.0 and 250.0 are built. *)
Lemma current_boundary_cases :
  let shunt s := Reference.current DAQCurrentRange.Current_20mA s 1.0 0.0 in
  is_config_error (Analog.DAQAnalogCurrentChannel.__post_init__ (shunt 9.9%float))
  = true
  /\ Analog.DAQAnalogCurrentChannel.__post_init__ (shunt 10.0%float) = Ok tt
  /\ Analog.DAQAnalogCurrentChannel.__post_init__ (shunt 250.0%float) = Ok tt.
Proof. cbv zeta. repeat split; vm_compute; reflexivity. Qed.

(** With multiplier 49.0 and shunt 49.0 the quotient is 1.0, the value the
    channel writes is the float below it; on the 20 mA range the two differ
    as well. *)
Lemma current_multiplier_is_not_the_quotient :
  let c := Reference.current DAQCurrentRange.Current_100mA 49.0 49.0 0.0 in
  let c' := Reference.current DAQCurrentRange.Current_20mA 49.0 49.0 0.0 in
  Analog.DAQAnalogCurrentChannel.__post_init__ c = Ok tt
  /\ Analog._modified_mxab_multiplier c = Ok 0.99999999999999989%float
  /\ PrimFloat.div 49.0 49.0 = 1.0%float
  /\ Analog._modified_mxab_multiplier c
     <> Ok (PrimFloat.div
              (Analog.mxab_multuplier (Analog.base c))
              (Analog.DAQAnalogCurrentChannel.shunt_resistance c))
  /\ Analog._modified_mxab_multiplier c'
     <> Ok (PrimFloat.mul
              (PrimFloat.div
                 (Analog.mxab_multuplier (Analog.base c'))
                 (Analog.DAQAnalogCurrentChannel.shunt_resistance c'))
              6250.0).
Proof.
  cbv zeta. repeat split; try (vm_compute; reflexivity).
  - intros H. vm_compute in H. apply Ok_inj in H.
    revert H. apply FloatFacts.eqb_false_neq; reflexivity.
  - intros H. vm_compute in H. apply Ok_inj in H.
    revert H. apply FloatFacts.eqb_false_neq; reflexivity.
Qed.

Lemma current_calibration_witness :
  let c := Reference.current DAQCurrentRange.Current_20mA 50.0 2.0 30.0 in
  @Analog._modified_mxab_multiplier _ Analog.DAQAnalogCurrentChannel.calibration
     c = Ok 250.0%float
  /\ @Analog._modified_mxab_offset _ Analog.DAQAnalogCurrentChannel.calibration
       c = Ok 5.0%float.
Proof.
  cbv zeta.
  pose proof (@current_calibration_spec Reference.codec Reference.tables
                (Reference.current DAQCurrentRange.Current_20mA 50.0 2.0 30.0)
                eq_refl) as H.
  cbv zeta in H. destruct H as [Hm [Ho _]]. split.
  - rewrite Hm. vm_compute. reflexivity.
  - rewrite Ho. vm_compute. reflexivity.
Defined.

Lemma current_extra_bits_witness :
  (exists trailer,
     @Analog.encode Reference.codec Reference.tables
       (Analog.Current
          (Reference.current DAQCurrentRange.Current_100mA 50.0 1.0 0.0))
     = Ok (List.concat
             [ @make_int Reference.codec 0x10002;
               @make_int Reference.codec 0x4210;
               @make_float Reference.codec 50.0;
               @ZERO_INT Reference.codec;
               @make_int Reference.codec 0x7001;
               trailer ]))
  /\ @Config.extra_bits
       (Vectors.legacy_current DAQRange.Current_20mA) = 0x7000
  /\ @Config.extra_bits
       (Vectors.legacy_current DAQRange.Current_100mA) = 0x7001.
Proof.
  pose proof (@current_extra_bits_spec Reference.codec Reference.tables)
    as [Hnew [Hold _]].
  split; [| split].
  - destruct (Hnew (Reference.current DAQCurrentRange.Current_100mA
                      50.0 1.0 0.0) eq_refl) as [trailer [_ E]].
    exists trailer. exact E.
  - exact (proj1 (Hold (Vectors.legacy_current DAQRange.Current_20mA)
                    DAQCurrentRange.Current_20mA eq_refl eq_refl)).
  - exact (proj1 (Hold (Vectors.legacy_current DAQRange.Current_100mA)
                    DAQCurrentRange.Current_100mA eq_refl eq_refl)).
Defined.

(** *** Which calls return *)

(** [write()] on an equation channel is the inherited [DAQChannel.write],
    which raises; so does the default [write_with_aux] when it is run on an
    equation channel. *)
Lemma write_raises_on_equation_channel :
  let ch := Config.Equation (Reference.equation_channel Vectors.equation_bytes)
  in
  Config.concrete ch = true
  /\ @Config.write Reference.codec Reference.tables ch
     = Raise (NotImplementedError
         "write or write_with_equation method must be implemented in subclass")
  /\ @Config.DAQChannel_write_with_aux Reference.codec Reference.tables ch 0
     = Raise (NotImplementedError
         "write or write_with_equation method must be implemented in subclass")
  /\ ~ (forall ch : Config.Channel,
          Config.concrete ch = true ->
          exists payload,
            @Config.write Reference.codec Reference.tables ch = Ok payload).
Proof.
  cbv zeta. repeat split.
  intros H.
  destruct (H (Config.Equation
                 (Reference.equation_channel Vectors.equation_bytes))
              eq_refl) as [payload E].
  discriminate E.
Qed.

Lemma encode_returns_witness :
  (exists payload aux,
     @Config.write_with_aux Reference.codec Reference.tables
       (Config.Equation (Reference.equation_channel Vectors.equation_bytes)) 0
     = Ok (payload, aux))
  /\ (exists payload,
        @Config.write Reference.codec Reference.tables
          (Config.Average Vectors.average) = Ok payload)
  /\ (exists payload,
        @Analog.encode Reference.codec Reference.tables
          (Analog.Current
             (Reference.current DAQCurrentRange.Current_100mA 50.0 1.0 0.0))
        = Ok payload).
Proof.
  pose proof (@encode_returns Reference.codec Reference.tables)
    as [Haux [Hwrite Hencode]].
  split; [| split].
  - apply Haux. reflexivity.
  - apply Hwrite; [reflexivity | discriminate].
  - apply (Hencode
             (Analog.Current
                (Reference.current DAQCurrentRange.Current_100mA
                   50.0 1.0 0.0))).
    reflexivity.
Defined.

(** *** The configuration bits *)

Lemma bits_drift_correction_witness :
  let dc := @value _ (@DAQConfigBits_value Reference.tables)
              DAQConfigBits.DRIFT_CORRECTION in
  (flag_set
     (@Config.bits Reference.tables
        (Reference.configuration DAQConfigSpeed.FAST false
           [DAQConfigTrigger.INTERVAL])) dc = true
   <-> false = true \/ DAQConfigSpeed.FAST <> DAQConfigSpeed.FAST)
  /\ (flag_set
        (@Config.bits Reference.tables
           (Reference.configuration DAQConfigSpeed.SLOW false
              [DAQConfigTrigger.INTERVAL])) dc = true
      <-> false = true \/ DAQConfigSpeed.SLOW <> DAQConfigSpeed.FAST).
Proof.
  cbv zeta. split.
  - apply (@bits_drift_correction_spec Reference.tables
             (Reference.configuration DAQConfigSpeed.FAST false
                [DAQConfigTrigger.INTERVAL]));
      try reflexivity; try discriminate.
    intros t [<- | []]. reflexivity.
  - apply (@bits_drift_correction_spec Reference.tables
             (Reference.configuration DAQConfigSpeed.SLOW false
                [DAQConfigTrigger.INTERVAL]));
      try reflexivity; try discriminate.
    intros t [<- | []]. reflexivity.
Defined.

(** With the reference tables: FAST without drift correction has the flag
    clear, FAST with it and SLOW without it have the flag set. *)
Lemma bits_drift_correction_cases :
  let bits s d :=
    @Config.bits Reference.tables
      (Reference.configuration s d [DAQConfigTrigger.INTERVAL]) in
  flag_set (bits DAQConfigSpeed.FAST false) 0x08 = false
  /\ flag_set (bits DAQConfigSpeed.FAST true) 0x08 = true
  /\ flag_set (bits DAQConfigSpeed.SLOW false) 0x08 = true
  /\ flag_set (bits DAQConfigSpeed.MEDIUM false) 0x08 = true.
Proof. cbv zeta. repeat split. Qed.

Lemma bits_triggers_witness :
  let a := DAQConfigTrigger.INTERVAL in
  let b := DAQConfigTrigger.other 0 in
  let cfg := Reference.configuration DAQConfigSpeed.SLOW true [a; b] in
  @Config.bits Reference.tables (Config.set_triggers cfg [b; a])
  = @Config.bits Reference.tables cfg
  /\ @Config.bits Reference.tables (Config.set_triggers cfg [a; b; b])
     = @Config.bits Reference.tables cfg.
Proof.
  cbv zeta.
  pose proof (@bits_triggers_spec Reference.tables
                (Reference.configuration DAQConfigSpeed.SLOW true
                   [DAQConfigTrigger.INTERVAL; DAQConfigTrigger.other 0]))
    as [_ [Hperm Hdup]].
  split.
  - apply Hperm. apply perm_swap.
  - apply (Hdup [DAQConfigTrigger.INTERVAL] (DAQConfigTrigger.other 0) []).
    reflexivity.
Defined.

(* ================================================================== *)
(** ** More on the configuration bits *)

Lemma land_lor_keep_r (a b f : Z) :
  Z.land b f = f -> Z.land (Z.lor a b) f = f.
Proof. rewrite Z.lor_comm. apply land_lor_keep. Qed.

Lemma or_all_contains (codes : list Z) (c : Z) :
  In c codes -> Z.land (or_all codes) c = c.
Proof.
  induction codes as [| x codes IH]; simpl; intros H; [contradiction |].
  destruct H as [-> | H].
  - rewrite Z.lor_comm. apply land_lor_self.
  - apply land_lor_keep_r. now apply IH.
Qed.

Lemma lor_bound (n a b : Z) :
  0 <= n -> 0 <= a < 2 ^ n -> 0 <= b < 2 ^ n -> 0 <= Z.lor a b < 2 ^ n.
Proof.
  intros Hn Ha Hb.
  assert (E : Z.lor a b = Z.lor a b mod 2 ^ n).
  { rewrite <- !Z.land_ones by assumption.
    rewrite Z.land_lor_distr_l, !Z.land_ones by assumption.
    now rewrite !Z.mod_small by assumption. }
  rewrite E. apply Z.mod_pos_bound. lia.
Qed.

Lemma or_all_bound (n : Z) (codes : list Z) :
  0 <= n -> (forall c, In c codes -> 0 <= c < 2 ^ n) ->
  0 <= or_all codes < 2 ^ n.
Proof.
  intros Hn. induction codes as [| c codes IH]; simpl; intros H.
  - split; [lia | apply Z.pow_pos_nonneg; lia].
  - apply lor_bound; [assumption | apply H; now left |].
    apply IH. intros c' Hc'. apply H. now right.
Qed.

Section BitsFacts.
Context {tables : EnumTables}.
Import Config.

Lemma bits_or_all_sources (cfg : DAQConfiguration) :
  bits cfg = or_all (bit_sources cfg).
Proof.
  unfold bits, bit_sources. rewrite fold_left_lor.
  destruct (drift_correction cfg
            || negb (DAQConfigSpeed.eqb (speed cfg) DAQConfigSpeed.FAST)),
    (trigger_out cfg), (temperature_fahrenheit cfg), (totalizer_debounce cfg);
    simpl; rewrite <- ?Z.lor_assoc; reflexivity.
Qed.

Lemma bits_contains_source (cfg : DAQConfiguration) (c : Z) :
  In c (bit_sources cfg) -> flag_set (bits cfg) c = true.
Proof.
  intros H. unfold flag_set. apply Z.eqb_eq.
  rewrite bits_or_all_sources. now apply or_all_contains.
Qed.

Lemma bits_flag_absent (cfg : DAQConfiguration) (f : Z) (others : list Z) :
  independent_flag cfg f others ->
  (forall c, In c (bit_sources cfg) ->
             In c (value (speed cfg) :: others ++ map value (triggers cfg))) ->
  flag_set (bits cfg) f = false.
Proof.
  intros [Hnz Hdisj] Hsub. unfold flag_set.
  rewrite bits_or_all_sources, or_all_land_clear.
  - apply Z.eqb_neq. congruence.
  - intros c Hc. apply Hdisj. now apply Hsub.
Qed.

Lemma bits_contains_trigger (cfg : DAQConfiguration)
    (t : DAQConfigTrigger.t) :
  In t (triggers cfg) -> flag_set (bits cfg) (value t) = true.
Proof.
  intros Ht. apply bits_contains_source. unfold bit_sources.
  rewrite !in_app_iff. do 5 right. now apply in_map.
Qed.

Lemma bits_contains_set_flags (cfg : DAQConfiguration) :
  (trigger_out cfg = true ->
   flag_set (bits cfg) (value DAQConfigBits.TRIGGER_OUT) = true)
  /\ (temperature_fahrenheit cfg = true ->
      flag_set (bits cfg) (value DAQConfigBits.FAHRENHEIT) = true)
  /\ (totalizer_debounce cfg = true ->
      flag_set (bits cfg) (value DAQConfigBits.TOTALIZER_DEBOUNCE) = true).
Proof.
  repeat split; intros H; apply bits_contains_source; unfold bit_sources;
    rewrite H, !in_app_iff.
  - right. right. left. now left.
  - do 3 right. left. now left.
  - do 4 right. left. now left.
Qed.

(** The speed code, the code of every trigger of the list and the code of
    every flag whose field is set are all contained in [bits()], whatever
    the code tables are. *)
Theorem bits_contains (cfg : DAQConfiguration) :
  flag_set (bits cfg) (value (speed cfg)) = true
  /\ (forall t, In t (triggers cfg) -> flag_set (bits cfg) (value t) = true)
  /\ (trigger_out cfg = true ->
      flag_set (bits cfg) (value DAQConfigBits.TRIGGER_OUT) = true)
  /\ (temperature_fahrenheit cfg = true ->
      flag_set (bits cfg) (value DAQConfigBits.FAHRENHEIT) = true)
  /\ (totalizer_debounce cfg = true ->
      flag_set (bits cfg) (value DAQConfigBits.TOTALIZER_DEBOUNCE) = true).
Proof.
  split; [| split; [| apply bits_contains_set_flags]].
  - apply bits_contains_source. unfold bit_sources. now left.
  - intros t. apply bits_contains_trigger.
Qed.

(** Each of the flags TRIGGER_OUT, FAHRENHEIT and TOTALIZER_DEBOUNCE is
    present in [bits()] exactly when its field is set, provided its code is
    not zero and shares no bit with the speed code, the three other flags
    and the triggers in use. *)
Theorem bits_plain_flags_spec (cfg : DAQConfiguration) :
  let dc := value DAQConfigBits.DRIFT_CORRECTION in
  let out := value DAQConfigBits.TRIGGER_OUT in
  let fahr := value DAQConfigBits.FAHRENHEIT in
  let deb := value DAQConfigBits.TOTALIZER_DEBOUNCE in
  (independent_flag cfg out [dc; fahr; deb] ->
   flag_set (bits cfg) out = trigger_out cfg)
  /\ (independent_flag cfg fahr [dc; out; deb] ->
      flag_set (bits cfg) fahr = temperature_fahrenheit cfg)
  /\ (independent_flag cfg deb [dc; out; fahr] ->
      flag_set (bits cfg) deb = totalizer_debounce cfg).
Proof.
  cbv zeta. repeat split; intros Hind.
  - destruct (trigger_out cfg) eqn:E.
    + now apply bits_contains_set_flags.
    + apply (bits_flag_absent cfg _ _ Hind).
      intros c. unfold bit_sources. rewrite E.
      destruct (drift_correction cfg || _), (temperature_fahrenheit cfg),
        (totalizer_debounce cfg); simpl; rewrite ?in_app_iff; simpl; tauto.
  - destruct (temperature_fahrenheit cfg) eqn:E.
    + now apply bits_contains_set_flags.
    + apply (bits_flag_absent cfg _ _ Hind).
      intros c. unfold bit_sources. rewrite E.
      destruct (drift_correction cfg || _), (trigger_out cfg),
        (totalizer_debounce cfg); simpl; rewrite ?in_app_iff; simpl; tauto.
  - destruct (totalizer_debounce cfg) eqn:E.
    + now apply bits_contains_set_flags.
    + apply (bits_flag_absent cfg _ _ Hind).
      intros c. unfold bit_sources. rewrite E.
      destruct (drift_correction cfg || _), (trigger_out cfg),
        (temperature_fahrenheit cfg); simpl; rewrite ?in_app_iff; simpl;
        tauto.
Qed.

(** Unless the speed is FAST, [drift_correction] has no effect on
    [bits()]. *)
Theorem bits_drift_correction_ignored (cfg : DAQConfiguration) (d : bool) :
  speed cfg <> DAQConfigSpeed.FAST ->
  bits (set_drift_correction cfg d) = bits cfg.
Proof.
  intros H. unfold bits, set_drift_correction. simpl.
  unfold DAQConfigSpeed.eqb.
  destruct (DAQConfigSpeed.eq_dec (speed cfg) DAQConfigSpeed.FAST);
    [contradiction |].
  simpl. now rewrite !orb_true_r.
Qed.

(** When the speed code, the four flag codes and the codes of the triggers
    in use are non-negative and fit in [n] bits, so does [bits()]. *)
Theorem bits_bound (cfg : DAQConfiguration) (n : Z) :
  0 <= n ->
  (forall c,
     In c (value (speed cfg)
           :: [ value DAQConfigBits.DRIFT_CORRECTION;
                value DAQConfigBits.TRIGGER_OUT;
                value DAQConfigBits.FAHRENHEIT;
                value DAQConfigBits.TOTALIZER_DEBOUNCE ]
           ++ map value (triggers cfg)) ->
     0 <= c < 2 ^ n) ->
  0 <= bits cfg < 2 ^ n.
Proof.
  intros Hn H. rewrite bits_or_all_sources.
  apply or_all_bound; [assumption |].
  intros c Hc. apply H. revert Hc. unfold bit_sources.
  destruct (drift_correction cfg || _), (trigger_out cfg),
    (temperature_fahrenheit cfg), (totalizer_debounce cfg);
    simpl; rewrite ?in_app_iff; simpl; tauto.
Qed.

(** Adding triggers never clears a bit: when every trigger of [l1] is in
    [l2], the bits with triggers [l1] are contained in the bits with
    triggers [l2]. *)
Theorem bits_triggers_monotone (cfg : DAQConfiguration)
    (l1 l2 : list DAQConfigTrigger.t) :
  incl l1 l2 ->
  flag_set (bits (set_triggers cfg l2)) (bits (set_triggers cfg l1)) = true.
Proof.
  intros Hincl. unfold flag_set. apply Z.eqb_eq.
  rewrite (bits_decompose (set_triggers cfg l1)),
    (bits_decompose (set_triggers cfg l2)).
  change (set_triggers (set_triggers cfg l1) []) with (set_triggers cfg []).
  change (set_triggers (set_triggers cfg l2) []) with (set_triggers cfg []).
  simpl triggers. apply Z.bits_inj'. intros n _.
  rewrite Z.land_spec, !Z.lor_spec, !or_all_testbit.
  destruct (Z.testbit (bits (set_triggers cfg [])) n); simpl;
    [reflexivity |].
  destruct (existsb (fun c => Z.testbit c n) (map value l1)) eqn:E1;
    [| apply andb_false_r].
  rewrite andb_true_r.
  apply existsb_exists in E1 as [c [Hin Hc]].
  apply existsb_exists. exists c. split; [| assumption].
  apply in_map_iff in Hin as [t [<- Ht]]. apply in_map. now apply Hincl.
Qed.

End BitsFacts.

(* ================================================================== *)
(** ** More on the channels of [config.py] *)

Section ConfigChannelFacts.
Context {codec : Encoding} {tables : EnumTables}.
Import Config.

(** Whatever the codes of the alarm modes are, the alarm bits above bit 0
    are the code of [alarm1_mode] OR-ed with the code of [alarm2_mode]
    shifted left by 2: the part of an [alarm1_mode] code above its two low
    bits lands in the bits of [alarm2_mode]. *)
Theorem alarm_bits_above_bit0 (c : DAQChannel) :
  Z.shiftr (alarm_bits c) 1
  = Z.lor (value (alarm1_mode c)) (Z.shiftl (value (alarm2_mode c)) 2)
  /\ Z.shiftr (alarm_bits c) 3
     = Z.lor (Z.shiftr (value (alarm1_mode c)) 2) (value (alarm2_mode c)).
Proof.
  unfold alarm_bits. cbv zeta. split.
  - rewrite !Z.shiftr_lor.
    rewrite (Z.shiftr_shiftl_l (value (alarm1_mode c)) 1 1) by lia.
    rewrite (Z.shiftr_shiftl_l (value (alarm2_mode c)) 3 1) by lia.
    rewrite Z.shiftl_0_r.
    destruct (use_channel_as_alarm_trigger c); reflexivity.
  - rewrite !Z.shiftr_lor.
    rewrite (Z.shiftr_shiftl_r (value (alarm1_mode c)) 1 3) by lia.
    rewrite (Z.shiftr_shiftl_l (value (alarm2_mode c)) 3 3) by lia.
    rewrite Z.shiftl_0_r.
    destruct (use_channel_as_alarm_trigger c); reflexivity.
Qed.

(** With mode codes of two bits, the three fields can be read back from the
    alarm bits, and the alarm bits fit in five bits. *)
Theorem alarm_bits_fields (c : DAQChannel) :
  0 <= value (alarm1_mode c) < 4 ->
  0 <= value (alarm2_mode c) < 4 ->
  Z.testbit (alarm_bits c) 0 = use_channel_as_alarm_trigger c
  /\ Z.land (Z.shiftr (alarm_bits c) 1) 3 = value (alarm1_mode c)
  /\ Z.shiftr (alarm_bits c) 3 = value (alarm2_mode c)
  /\ 0 <= alarm_bits c < 32.
Proof.
  intros H1 H2. split; [apply alarm_bits_bit0 |].
  unfold alarm_bits. cbv zeta.
  remember (value (alarm1_mode c)) as v1 eqn:E1.
  remember (value (alarm2_mode c)) as v2 eqn:E2.
  clear E1 E2.
  assert (C1 : v1 = 0 \/ v1 = 1 \/ v1 = 2 \/ v1 = 3) by lia.
  assert (C2 : v2 = 0 \/ v2 = 1 \/ v2 = 2 \/ v2 = 3) by lia.
  destruct (use_channel_as_alarm_trigger c);
    destruct C1 as [-> | [-> | [-> | ->]]];
    destruct C2 as [-> | [-> | [-> | ->]]];
    repeat split; try reflexivity; vm_compute; congruence.
Qed.

(** The only exception [write] and [write_with_aux] raise is the
    [NotImplementedError] of [DAQChannel.write]: [write_with_aux] on an
    object of class [DAQChannel] or [DAQComputedChannel], [write] on these
    and on an equation channel. *)
Theorem write_raises_only_not_implemented (ch : Channel) (e : exn) :
  let not_implemented :=
    NotImplementedError
      "write or write_with_equation method must be implemented in subclass" in
  (forall aux_offset,
     write_with_aux ch aux_offset = Raise e ->
     e = not_implemented /\ concrete ch = false)
  /\ (write ch = Raise e ->
      e = not_implemented
      /\ (concrete ch = false \/ exists c, ch = Equation c)).
Proof.
  cbv zeta. split.
  - intros aux_offset. destruct ch; simpl; intros H; inversion H; auto.
  - destruct ch; simpl; intros H; inversion H; eauto.
Qed.

(** A channel that is not an equation channel ignores the aux offset and
    returns an empty auxiliary payload beside what [write] returns. *)
Theorem write_with_aux_without_equation (ch : Channel) :
  (forall c, ch <> Equation c) ->
  (forall o1 o2, write_with_aux ch o1 = write_with_aux ch o2)
  /\ (forall aux_offset payload aux,
        write_with_aux ch aux_offset = Ok (payload, aux) ->
        aux = [] /\ write ch = Ok payload).
Proof.
  intros Hne. split.
  - intros o1 o2. destruct ch; try reflexivity. now contradiction (Hne c).
  - intros aux_offset payload aux.
    destruct ch; simpl; intros H; inversion H; subst; auto.
    now contradiction (Hne c).
Qed.

(** An A-minus-average channel is written exactly as the A-minus-B channel
    that has the bitmask in place of [channel_b]: the two use one type
    code. *)
Theorem aminusavg_written_as_aminusb (c : DAQComputedAminusAvgChannel)
    (aux_offset : Z) :
  write_with_aux (AminusAvg c) aux_offset
  = write_with_aux
      (AminusB {| aminusb_base := aminusavg_base c;
                  aminusb_channel_a := aminusavg_channel_a c;
                  aminusb_channel_b := aminusavg_channel_bitmask c |})
      aux_offset.
Proof. reflexivity. Qed.

(** With a codec of fixed widths, the main payload of a channel has the
    length of its header (three ints and two floats for an analog channel,
    five ints for a computed one) plus the length of the trailer (one int,
    four floats, two optional bits); the auxiliary payload is as long as the
    equation, and empty for the other channels. *)
Theorem write_with_aux_lengths (wi wf wb : nat) (ch : Channel)
    (aux_offset : Z) (payload aux : bytes) :
  fixed_width codec wi wf wb ->
  write_with_aux ch aux_offset = Ok (payload, aux) ->
  List.length payload
  = (config_header_length wi wf ch + (wi + 4 * wf + 2 * wb))%nat
  /\ List.length aux
     = match ch with
       | Equation c => List.length (equation c)
       | _ => 0%nat
       end.
Proof.
  intros (Hi & Hf & Hb & Hnull & _).
  destruct ch; simpl; intros H; inversion H; subst; clear H;
    (split; [| reflexivity]);
    unfold DAQAnalogChannel_write, DAQComputedAverageChannel_write,
      DAQComputedAminusBChannel_write, DAQComputedAminusAvgChannel_write,
      write_common_trailer;
    rewrite !length_app, ?Hi, ?Hf, ?Hb, ?Hnull; lia.
Qed.

End ConfigChannelFacts.

(* ================================================================== *)
(** ** More on the channels of [analog.py] *)

Section AnalogChannelFacts.
Context {codec : Encoding} {tables : EnumTables}.

(** What [encode] returns is a header followed by what
    [encode_common_trailer] returned.  With a codec of fixed widths the
    header of an RTD channel is three ints and two floats, the header of a
    Current channel four ints and one float, and every other header five
    ints: the unused float slots are filled with the zero int. *)
Theorem analog_encode_layout (wi wf wb : nat) (ch : Analog.Channel)
    (payload : bytes) :
  fixed_width codec wi wf wb ->
  Analog.encode ch = Ok payload ->
  exists head trailer,
    analog_trailer ch = Ok trailer
    /\ payload = head ++ trailer
    /\ List.length head = analog_header_length wi wf ch.
Proof.
  intros (Hi & Hf & _ & _ & Hzero).
  destruct ch as [c | c | c | c | c | c | c]; simpl;
    unfold Analog.DAQAnalogOhmsChannel.encode,
      Analog.DAQAnalogVDCChannel.encode, Analog.DAQAnalogVACChannel.encode,
      Analog.DAQAnalogFrequencyChannel.encode,
      Analog.DAQAnalogRTDChannel.encode,
      Analog.DAQAnalogThermocoupleChannel.encode,
      Analog.DAQAnalogCurrentChannel.encode;
    destruct (Analog.encode_common_trailer c) as [trailer |]; simpl;
    intros H; inversion H; subst; clear H;
    repeat rewrite app_assoc;
    (eexists; eexists; split; [reflexivity | split; [reflexivity |]]);
    rewrite !length_app, ?Hi, ?Hf, ?Hzero; lia.
Qed.

(** The constructor refuses only Ohms, RTD and Current channels, and only
    with a configuration error; VDC, VAC, Frequency and Thermocouple
    channels are always built.  What it builds has the fields it was
    given. *)
Theorem analog_construct_refusals (fields : Analog.Channel) :
  (forall e,
     Analog.construct fields = Raise e ->
     (exists msg, e = ConfigError msg)
     /\ match fields with
        | Analog.Ohms _ | Analog.RTD _ | Analog.Current _ => True
        | _ => False
        end)
  /\ (forall ch, Analog.construct fields = Ok ch -> ch = fields).
Proof.
  unfold Analog.construct. split.
  - intros e.
    destruct fields as [c | c | c | c | c | c | c]; simpl;
      try discriminate;
      unfold Analog.DAQAnalogOhmsChannel.__post_init__,
        Analog.DAQAnalogRTDChannel.__post_init__,
        Analog.DAQAnalogCurrentChannel.__post_init__;
      repeat match goal with
             | |- context [if ?b then _ else _] => destruct b
             end;
      simpl; intros H; inversion H; eauto.
  - intros ch. destruct (Analog.__post_init__ fields); simpl;
      intros H; inversion H; reflexivity.
Qed.

(** A Current channel is refused exactly when its shunt resistance is a
    number outside [10.0, 250.0]; a NaN shunt resistance is accepted. *)
Theorem current_post_init_spec (c : Analog.DAQAnalogCurrentChannel.t) :
  let shunt := Analog.DAQAnalogCurrentChannel.shunt_resistance c in
  is_config_error (Analog.DAQAnalogCurrentChannel.__post_init__ c)
  = negb (PyFloat.isnan shunt || PyFloat.in_range 10.0 250.0 shunt).
Proof.
  cbv zeta.
  unfold Analog.DAQAnalogCurrentChannel.__post_init__, PyFloat.in_range,
    PyFloat.lt, PyFloat.gt.
  destruct (PyFloat.isnan (Analog.DAQAnalogCurrentChannel.shunt_resistance c))
    eqn:Hnan.
  - rewrite FloatFacts.ltb_nan_l, FloatFacts.ltb_nan_r by assumption.
    reflexivity.
  - rewrite (FloatFacts.ltb_negb_leb
               (Analog.DAQAnalogCurrentChannel.shunt_resistance c) 10.0)
      by (assumption || reflexivity).
    rewrite (FloatFacts.ltb_negb_leb 250.0
               (Analog.DAQAnalogCurrentChannel.shunt_resistance c))
      by (assumption || reflexivity).
    destruct (PrimFloat.leb 10.0
                (Analog.DAQAnalogCurrentChannel.shunt_resistance c));
      destruct (PrimFloat.leb
                  (Analog.DAQAnalogCurrentChannel.shunt_resistance c) 250.0);
      reflexivity.
Qed.

End AnalogChannelFacts.

(* ================================================================== *)
(** ** The further properties on concrete channels *)

Lemma reference_codec_fixed_width : fixed_width Reference.codec 4 8 4.
Proof.
  unfold fixed_width.
  repeat split; intros; try destruct o; reflexivity.
Qed.

Lemma bits_contains_witness :
  flag_set
    (@Config.bits Reference.tables
       (Reference.configuration DAQConfigSpeed.MEDIUM false
          [DAQConfigTrigger.INTERVAL; DAQConfigTrigger.other 1]))
    0x80 = true.
Proof.
  apply (proj1 (proj2
           (@bits_contains Reference.tables
              (Reference.configuration DAQConfigSpeed.MEDIUM false
                 [DAQConfigTrigger.INTERVAL; DAQConfigTrigger.other 1])))
           (DAQConfigTrigger.other 1)).
  right. left. reflexivity.
Defined.

Lemma bits_plain_flags_witness :
  flag_set
    (@Config.bits Reference.tables
       (Reference.configuration DAQConfigSpeed.FAST true
          [DAQConfigTrigger.INTERVAL]))
    0x04 = false
  /\ flag_set
       (@Config.bits Reference.tables
          (Reference.configuration DAQConfigSpeed.FAST true
             [DAQConfigTrigger.INTERVAL]))
       0x10 = true.
Proof.
  pose proof (@bits_plain_flags_spec Reference.tables
                (Reference.configuration DAQConfigSpeed.FAST true
                   [DAQConfigTrigger.INTERVAL])) as [Hout [_ Hdeb]].
  split.
  - apply Hout. split; [discriminate |].
    intros c Hc. simpl in Hc.
    repeat destruct Hc as [<- | Hc]; try reflexivity. contradiction.
  - apply Hdeb. split; [discriminate |].
    intros c Hc. simpl in Hc.
    repeat destruct Hc as [<- | Hc]; try reflexivity. contradiction.
Defined.

Lemma bits_drift_correction_ignored_witness :
  @Config.bits Reference.tables
    (set_drift_correction
       (Reference.configuration DAQConfigSpeed.SLOW true
          [DAQConfigTrigger.INTERVAL]) false)
  = @Config.bits Reference.tables
      (Reference.configuration DAQConfigSpeed.SLOW true
         [DAQConfigTrigger.INTERVAL]).
Proof.
  apply (@bits_drift_correction_ignored Reference.tables). discriminate.
Defined.

Lemma bits_bound_witness :
  0 <= @Config.bits Reference.tables
         (Reference.configuration DAQConfigSpeed.FAST true
            [DAQConfigTrigger.INTERVAL; DAQConfigTrigger.other 2])
     < 2 ^ 16.
Proof.
  apply (@bits_bound Reference.tables); [lia |].
  intros c Hc. simpl in Hc.
  repeat destruct Hc as [<- | Hc]; try (vm_compute; split; congruence).
  contradiction.
Defined.

Lemma bits_triggers_monotone_witness :
  flag_set
    (@Config.bits Reference.tables
       (Config.set_triggers
          (Reference.configuration DAQConfigSpeed.SLOW true [])
          [DAQConfigTrigger.other 0; DAQConfigTrigger.INTERVAL]))
    (@Config.bits Reference.tables
       (Config.set_triggers
          (Reference.configuration DAQConfigSpeed.SLOW true [])
          [DAQConfigTrigger.INTERVAL]))
  = true.
Proof.
  apply (@bits_triggers_monotone Reference.tables).
  intros t [<- | []]. right. left. reflexivity.
Defined.

Lemma alarm_bits_fields_witness :
  let c := {| Config.use_channel_as_alarm_trigger := true;
              Config.alarm1_mode := DAQConfigAlarm.other 1;
              Config.alarm2_mode := DAQConfigAlarm.other 0;
              Config.alarm1_level := 1.5;
              Config.alarm2_level := 0.0;
              Config.alarm1_digital := Some 3;
              Config.alarm2_digital := None;
              Config.mxab_multuplier := 1.0;
              Config.mxab_offset := 0.0 |} in
  Z.land (Z.shiftr (@Config.alarm_bits Reference.tables c) 1) 3 = 2
  /\ Z.shiftr (@Config.alarm_bits Reference.tables c) 3 = 1.
Proof.
  cbv zeta.
  pose proof (@alarm_bits_fields Reference.tables
                {| Config.use_channel_as_alarm_trigger := true;
                   Config.alarm1_mode := DAQConfigAlarm.other 1;
                   Config.alarm2_mode := DAQConfigAlarm.other 0;
                   Config.alarm1_level := 1.5;
                   Config.alarm2_level := 0.0;
                   Config.alarm1_digital := Some 3;
                   Config.alarm2_digital := None;
                   Config.mxab_multuplier := 1.0;
                   Config.mxab_offset := 0.0 |}) as H.
  destruct H as [_ [H1 [H2 _]]];
    [vm_compute; split; congruence | vm_compute; split; congruence |].
  split; [exact H1 | exact H2].
Defined.

Lemma write_raises_only_not_implemented_witness :
  NotImplementedError
    "write or write_with_equation method must be implemented in subclass"
  = NotImplementedError
      "write or write_with_equation method must be implemented in subclass"
  /\ Config.concrete (Config.Computed Reference.channel) = false.
Proof.
  apply (proj1 (@write_raises_only_not_implemented
                  Reference.codec Reference.tables
                  (Config.Computed Reference.channel) _) 0).
  reflexivity.
Defined.

Lemma write_with_aux_without_equation_witness :
  @Config.write_with_aux Reference.codec Reference.tables
    (Config.Average Vectors.average) 0
  = @Config.write_with_aux Reference.codec Reference.tables
      (Config.Average Vectors.average) 64.
Proof.
  apply (proj1 (@write_with_aux_without_equation
                  Reference.codec Reference.tables
                  (Config.Average Vectors.average)
                  ltac:(discriminate))).
Defined.

Lemma write_with_aux_lengths_witness :
  match
    @Config.write_with_aux Reference.codec Reference.tables
      (Config.Equation (Reference.equation_channel Vectors.equation_bytes)) 0
  with
  | Ok (payload, aux) =>
      List.length payload = 64%nat /\ List.length aux = 3%nat
  | Raise _ => False
  end.
Proof.
  exact (@write_with_aux_lengths Reference.codec Reference.tables 4 8 4
           (Config.Equation
              (Reference.equation_channel Vectors.equation_bytes))
           0 _ _ reference_codec_fixed_width eq_refl).
Defined.

Lemma write_with_aux_ends_with_trailer_witness :
  exists head,
    @Config.DAQComputedAverageChannel_write Reference.codec Reference.tables
      Vectors.average
    = head ++ @Config.write_common_trailer Reference.codec Reference.tables
                Reference.channel.
Proof.
  apply (@write_with_aux_ends_with_trailer Reference.codec Reference.tables
           (Config.Average Vectors.average) 0 _ []).
  reflexivity.
Defined.

Lemma analog_encode_layout_witness :
  match
    @Analog.encode Reference.codec Reference.tables
      (Analog.RTD (Reference.rtd DAQRTDRange.RTD_CUSTOM_385 0.00385 100.0))
  with
  | Ok payload =>
      exists head trailer,
        @analog_trailer Reference.codec Reference.tables
          (Analog.RTD
             (Reference.rtd DAQRTDRange.RTD_CUSTOM_385 0.00385 100.0))
        = Ok trailer
        /\ payload = head ++ trailer
        /\ List.length head = 28%nat
  | Raise _ => False
  end.
Proof.
  exact (@analog_encode_layout Reference.codec Reference.tables 4 8 4
           (Analog.RTD
              (Reference.rtd DAQRTDRange.RTD_CUSTOM_385 0.00385 100.0))
           _ reference_codec_fixed_width eq_refl).
Defined.

Lemma analog_construct_refusals_witness :
  (exists msg,
     ConfigError "Shunt resistance must be between 10 and 250 Ohms"
     = ConfigError msg)
  /\ True.
Proof.
  apply (proj1 (@analog_construct_refusals
                  (Analog.Current
                     (Reference.current DAQCurrentRange.Current_20mA
                        9.9 1.0 0.0)))).
  reflexivity.
Defined.

Lemma rtd_post_init_on_numbers_witness :
  is_config_error
    (Analog.DAQAnalogRTDChannel.__post_init__
       (Reference.rtd DAQRTDRange.RTD_CUSTOM_385 0.004 100.0))
  = negb (rtd_constraints_hold
            (Reference.rtd DAQRTDRange.RTD_CUSTOM_385 0.004 100.0)).
Proof.
  apply rtd_post_init_on_numbers; reflexivity.
Defined.

(* ================================================================== *)
(** ** Reading a trigger back from the configuration bits *)

Lemma DAQConfigTrigger_eq_dec (a b : DAQConfigTrigger.t) : {a = b} + {a <> b}.
Proof. decide equality. apply Nat.eq_dec. Qed.

(** A trigger whose code is not zero and shares no bit with the speed code,
    the four flags and the other triggers of the list is present in
    [bits()] exactly when it is in the list. *)
Theorem bits_trigger_spec {tables : EnumTables}
    (cfg : Config.DAQConfiguration) (t : DAQConfigTrigger.t) :
  value t <> 0 ->
  (forall c,
     In c [ value (Config.speed cfg);
            value DAQConfigBits.DRIFT_CORRECTION;
            value DAQConfigBits.TRIGGER_OUT;
            value DAQConfigBits.FAHRENHEIT;
            value DAQConfigBits.TOTALIZER_DEBOUNCE ] ->
     Z.land c (value t) = 0) ->
  (forall t', In t' (Config.triggers cfg) -> t' <> t ->
              Z.land (value t') (value t) = 0) ->
  (flag_set (Config.bits cfg) (value t) = true <-> In t (Config.triggers cfg)).
Proof.
  intros Hnz Hfixed Hothers. split.
  - intros Hset.
    destruct (in_dec DAQConfigTrigger_eq_dec t (Config.triggers cfg))
      as [Hin | Hnot]; [assumption | exfalso].
    unfold flag_set in Hset. apply Z.eqb_eq in Hset.
    rewrite bits_or_all_sources, or_all_land_clear in Hset;
      [now apply Hnz |].
    intros c Hc. unfold bit_sources in Hc.
    rewrite !in_app_iff in Hc.
    destruct Hc as [Hc | [Hc | [Hc | [Hc | [Hc | Hc]]]]].
    + apply Hfixed. destruct Hc as [<- | []]. now left.
    + destruct (_ || _); simpl in Hc; [| contradiction].
      destruct Hc as [<- | []]. apply Hfixed. right. now left.
    + destruct (Config.trigger_out cfg); simpl in Hc; [| contradiction].
      destruct Hc as [<- | []]. apply Hfixed. do 2 right. now left.
    + destruct (Config.temperature_fahrenheit cfg); simpl in Hc;
        [| contradiction].
      destruct Hc as [<- | []]. apply Hfixed. do 3 right. now left.
    + destruct (Config.totalizer_debounce cfg); simpl in Hc;
        [| contradiction].
      destruct Hc as [<- | []]. apply Hfixed. do 4 right. now left.
    + apply in_map_iff in Hc as [t' [<- Hin]].
      apply Hothers; [assumption |]. intros ->. contradiction.
  - intros Hin. now apply bits_contains_trigger.
Qed.

Lemma bits_trigger_witness :
  flag_set
    (@Config.bits Reference.tables
       (Reference.configuration DAQConfigSpeed.SLOW true
          [DAQConfigTrigger.INTERVAL]))
    0x40 = true
  <-> In (DAQConfigTrigger.other 0) [DAQConfigTrigger.INTERVAL].
Proof.
  apply (@bits_trigger_spec Reference.tables
           (Reference.configuration DAQConfigSpeed.SLOW true
              [DAQConfigTrigger.INTERVAL])
           (DAQConfigTrigger.other 0)).
  - discriminate.
  - intros c Hc. simpl in Hc.
    repeat destruct Hc as [<- | Hc]; try reflexivity. contradiction.
  - intros t' [<- | []] _. reflexivity.
Defined.
